(** * migrate_to_db: import of wallets.txt and transactions.txt into the database

    A shallow embedding of [migrate_to_db.py].  The two importers
    [migrate_wallets] and [migrate_transactions] are written in a small
    state-and-exception monad, statement by statement as in the script.

    What the script takes from outside is explicit:
    - the Python library calls whose results depend on text ([str.strip],
      [json.loads], [int] and [float] of a string, [datetime.fromisoformat]),
      the clock behind [datetime.utcnow] and the session's autoflush setting
      are the fields of the class [Platform];
    - the content of an input file is an [option (list string)]: [None] when
      [os.path.exists] is false, otherwise the lines of the file;
    - the answer of the storage layer to [db.session.commit()] is a function
      of the table and the staged batch, passed to each importer.  The
      storage layer refuses rows, when it does, at the commit: the flush
      before a query succeeds.

    An importer starts with an empty session: the one before it committed
    or rolled back, and an exception that leaves an importer ends the
    script, so the rows it had staged are never committed. *)

From Stdlib Require Import ZArith List String Bool Lia.
From Stdlib Require Import Floats.SpecFloat.
From stdpp Require Import base gmap sets.
Import ListNotations.

Local Open Scope string_scope.
Local Open Scope list_scope.

(** ** Python values *)

(** A Python [float] is an IEEE-754 binary64 value. *)
Definition pyfloat : Type := spec_float.

(** [float_lit m e] is the binary64 value nearest to [m * 2^e]. *)
Definition float_lit (m e : Z) : pyfloat := binary_normalize 53 1024 m e false.

(** The value [json.loads] returns for one line. *)
#[local] Set Warnings "-register-all".
Inductive json : Type :=
| JNull
| JBool (b : bool)
| JInt (z : Z)
| JFloat (f : pyfloat)
| JStr (s : string)
| JArr (xs : list json)
| JObj (kvs : list (string * json)).

Definition pyfloat_eqb (a b : pyfloat) : bool :=
  match a, b with
  | S754_zero s, S754_zero t => Bool.eqb s t
  | S754_infinity s, S754_infinity t => Bool.eqb s t
  | S754_nan, S754_nan => true
  | S754_finite s m e, S754_finite t n f =>
      Bool.eqb s t && Pos.eqb m n && Z.eqb e f
  | _, _ => false
  end.

(** Equality of two decoded values, member by member. *)
Fixpoint json_eqb (a b : json) {struct a} : bool :=
  match a, b with
  | JNull, JNull => true
  | JBool x, JBool y => Bool.eqb x y
  | JInt x, JInt y => Z.eqb x y
  | JFloat x, JFloat y => pyfloat_eqb x y
  | JStr x, JStr y => String.eqb x y
  | JArr xs, JArr ys =>
      (fix all2 (xs ys : list json) {struct xs} : bool :=
         match xs, ys with
         | [], [] => true
         | x :: xs', y :: ys' => json_eqb x y && all2 xs' ys'
         | _, _ => false
         end) xs ys
  | JObj xs, JObj ys =>
      (fix all2 (xs ys : list (string * json)) {struct xs} : bool :=
         match xs, ys with
         | [], [] => true
         | (k, x) :: xs', (l, y) :: ys' =>
             String.eqb k l && json_eqb x y && all2 xs' ys'
         | _, _ => false
         end) xs ys
  | _, _ => false
  end.

(** Exceptions the script can meet.  [JSONDecodeError] is a subclass of
    [ValueError]; the others are unrelated to each other. *)
Inductive exn : Type :=
| JSONDecodeError
| ValueError
| TypeError
| OverflowError
| AttributeError.

Definition isinstance (e cls : exn) : bool :=
  match e, cls with
  | JSONDecodeError, (JSONDecodeError | ValueError) => true
  | ValueError, ValueError => true
  | TypeError, TypeError => true
  | OverflowError, OverflowError => true
  | AttributeError, AttributeError => true
  | _, _ => false
  end.

(** [except (c1, c2, ...)] *)
Definition caught_by (classes : list exn) (e : exn) : bool :=
  existsb (isinstance e) classes.

(** A naive or aware [datetime]. *)
Record datetime : Type := mkDatetime {
  year : Z; month : Z; day : Z;
  hour : Z; minute : Z; second : Z; microsecond : Z;
  utcoffset : option Z
}.

(** The last binding of [k]: [json.loads] keeps the last of repeated keys. *)
Fixpoint dict_lookup (k : string) (kvs : list (string * json)) : option json :=
  match kvs with
  | [] => None
  | (k', v) :: rest =>
      match dict_lookup k rest with
      | Some v' => Some v'
      | None => if String.eqb k k' then Some v else None
      end
  end.

(** [data.get(k, d)]; a value that is not a dict has no [get]. *)
Definition py_get (data : json) (k : string) (d : json) : exn + json :=
  match data with
  | JObj kvs =>
      inr (match dict_lookup k kvs with Some v => v | None => d end)
  | _ => inl AttributeError
  end.

(** Truth value of a decoded value, as tested by [if data.get(k):]. *)
Definition py_truthy (v : json) : bool :=
  match v with
  | JNull => false
  | JBool b => b
  | JInt z => negb (Z.eqb z 0)
  | JFloat (S754_zero _) => false
  | JFloat _ => true
  | JStr s => negb (String.eqb s "")
  | JArr xs => match xs with [] => false | _ => true end
  | JObj kvs => match kvs with [] => false | _ => true end
  end.

(** ** The platform *)

Class Platform : Type := {
  (** [line.strip()] *)
  strip : string -> string;
  (** [json.loads(line)]; [None] when it raises [JSONDecodeError] *)
  json_loads : string -> option json;
  (** [int(s)] for a string; [None] when it raises [ValueError] *)
  int_of_str : string -> option Z;
  (** [float(s)] for a string; [None] when it raises [ValueError] *)
  float_of_str : string -> option pyfloat;
  (** [datetime.fromisoformat(s)]; [None] when it raises [ValueError] *)
  fromisoformat : string -> option datetime;
  (** the value of the [n]-th call of [datetime.utcnow()] *)
  clock : nat -> datetime;
  (** whether a query first flushes the rows staged in the session, so that
      it sees them (the default of the session) *)
  autoflush : bool
}.

(** [int(v)] *)
Definition py_int `{Platform} (v : json) : exn + Z :=
  match v with
  | JInt z => inr z
  | JBool b => inr (if b then 1 else 0)%Z
  | JFloat S754_nan => inl ValueError
  | JFloat (S754_infinity _) => inl OverflowError
  | JFloat (S754_zero _) => inr 0%Z
  | JFloat (S754_finite s m e) =>
      let a := Z.shiftl (Zpos m) e in
      inr (if s then Z.opp a else a)
  | JStr s =>
      match int_of_str s with Some z => inr z | None => inl ValueError end
  | JNull | JArr _ | JObj _ => inl TypeError
  end.

(** [float(v)] *)
Definition py_float `{Platform} (v : json) : exn + pyfloat :=
  match v with
  | JFloat f => inr f
  | JInt z =>
      match binary_normalize 53 1024 z 0 false with
      | S754_infinity _ => inl OverflowError
      | f => inr f
      end
  | JBool b => inr (if b then float_lit 1 0 else S754_zero false)
  | JStr s =>
      match float_of_str s with Some f => inr f | None => inl ValueError end
  | JNull | JArr _ | JObj _ => inl TypeError
  end.

(** [datetime.fromisoformat(v)]: an argument that is not a string is a
    [TypeError]. *)
Definition py_fromisoformat `{Platform} (v : json) : exn + datetime :=
  match v with
  | JStr s =>
      match fromisoformat s with Some t => inr t | None => inl ValueError end
  | _ => inl TypeError
  end.

(** ** Rows *)

Module Wallet.
Record t : Type := mk {
  user_id : Z;
  balance : pyfloat;
  created_at : datetime;
  last_updated : datetime
}.
End Wallet.

Module Transaction.
Record t : Type := mk {
  transaction_id : json;
  user_id : Z;
  username : json;
  amount : pyfloat;
  method : json;
  status : json;
  txn_type : json;
  description : json;
  new_balance : json;
  txn_date : json;
  txn_time : json;
  timestamp : datetime
}.
End Transaction.

(** Lines printed on standard output, one constructor per [print]. *)
Inductive event : Type :=
| SkipWalletsFile
| SkipWalletUser (user_id : Z)
| SkipWalletExists (user_id : Z)
| OkWallet (user_id : Z) (balance : json)
| ErrorWalletLine (e : exn)
| OkWallets (count : nat)
| ErrorWallets
| SkipTransactionsFile
| SkipTransactionUser (user_id : Z) (txn_id : json)
| SkipTransactionExists (txn_id : json) (user_id : Z)
| OkTransaction (txn_id : json) (user_id : Z) (amount : json)
| ErrorTransactionLine (e : exn)
| OkTransactions (count : nat)
| ErrorTransactions
| Banner
| TablesVerified
| HeadingWallets
| HeadingTransactions
| Summary (wallet_count txn_count : nat)
| BackupNote.

(** ** The world: the database, the clock and standard output *)

Record world : Type := mkWorld {
  users : list Z;                       (* the ids of the User rows *)
  wallets : list Wallet.t;              (* the committed wallets table *)
  transactions : list Transaction.t;    (* the committed transactions table *)
  ticks : nat;                          (* calls of utcnow so far *)
  queries : nat;                        (* database queries so far *)
  stdout : list event
}.

(** The state of one importer while it runs: the world, the rows added to
    the session and not yet committed, and the two local counters. *)
Record locals (R : Type) : Type := mkLocals {
  env : world;
  pending : list R;
  count : nat;
  skipped : nat
}.
Arguments mkLocals {R} _ _ _ _.
Arguments env {R} _.
Arguments pending {R} _.
Arguments count {R} _.
Arguments skipped {R} _.

(** ** The monad: state, and exceptions that keep the state reached *)

Inductive result (St A : Type) : Type :=
| Val (a : A) (s : St)
| Exc (e : exn) (s : St).
Arguments Val {St A} _ _.
Arguments Exc {St A} _ _.

Definition M (St A : Type) : Type := St -> result St A.

Definition ret {St A} (a : A) : M St A := fun s => Val a s.

Definition bind {St A B} (m : M St A) (k : A -> M St B) : M St B :=
  fun s => match m s with
           | Val a s' => k a s'
           | Exc e s' => Exc e s'
           end.

Definition raise {St A} (e : exn) : M St A := fun s => Exc e s.

(** [try: body except classes: handler] *)
Definition try_except {St A} (body : M St A) (classes : list exn)
    (handler : exn -> M St A) : M St A :=
  fun s => match body s with
           | Val a s' => Val a s'
           | Exc e s' => if caught_by classes e then handler e s' else Exc e s'
           end.

Definition lift {St A} (r : exn + A) : M St A :=
  match r with inr a => ret a | inl e => raise e end.

Declare Scope py_scope.
Delimit Scope py_scope with py.
Notation "x <- m ;; k" := (bind m (fun x => k))
  (at level 100, m at next level, right associativity) : py_scope.
Notation "m ;; k" := (bind m (fun _ => k))
  (at level 100, right associativity) : py_scope.
Local Open Scope py_scope.

(** [for x in xs: body(x)] *)
Fixpoint for_each {St A} (body : A -> M St unit) (xs : list A) : M St unit :=
  match xs with
  | [] => ret tt
  | x :: xs' => body x ;; for_each body xs'
  end.

Definition print_world (ev : event) (w : world) : world :=
  mkWorld (users w) (wallets w) (transactions w) (ticks w) (queries w)
          (stdout w ++ [ev]).

Definition tick_world (w : world) : world :=
  mkWorld (users w) (wallets w) (transactions w) (S (ticks w)) (queries w)
          (stdout w).

Definition query_world (w : world) : world :=
  mkWorld (users w) (wallets w) (transactions w) (ticks w) (S (queries w))
          (stdout w).

Definition on_env {R} (f : world -> world) (st : locals R) : locals R :=
  mkLocals (f (env st)) (pending st) (count st) (skipped st).

Section Importers.
Context `{Platform}.

(** [print(...)] *)
Definition print {R} (ev : event) : M (locals R) unit :=
  fun st => Val tt (on_env (print_world ev) st).

(** [datetime.utcnow()] *)
Definition utcnow {R} : M (locals R) datetime :=
  fun st => Val (clock (ticks (env st))) (on_env tick_world st).

(** [skipped += 1] *)
Definition incr_skipped {R} : M (locals R) unit :=
  fun st => Val tt (mkLocals (env st) (pending st) (count st) (S (skipped st))).

(** [count += 1] *)
Definition incr_count {R} : M (locals R) unit :=
  fun st => Val tt (mkLocals (env st) (pending st) (S (count st)) (skipped st)).

(** [db.session.add(row)] *)
Definition session_add {R} (row : R) : M (locals R) unit :=
  fun st => Val tt (mkLocals (env st) (pending st ++ [row]) (count st) (skipped st)).

(** The rows a query of table [tbl] sees: the committed ones and, with
    autoflush, the ones staged so far. *)
Definition visible {R} (tbl : list R) (st : locals R) : list R :=
  tbl ++ (if autoflush then pending st else []).

(** [Wallet.query.filter_by(user_id=user_id).first()] *)
Definition wallet_first (user_id : Z) : M (locals Wallet.t) (option Wallet.t) :=
  fun st =>
    Val (find (fun r => Z.eqb (Wallet.user_id r) user_id)
              (visible (wallets (env st)) st))
        (on_env query_world st).

(** [Transaction.query.filter_by(transaction_id=txn_id, user_id=user_id).first()] *)
Definition transaction_first (txn_id : json) (user_id : Z)
    : M (locals Transaction.t) (option Transaction.t) :=
  fun st =>
    Val (find (fun r => json_eqb (Transaction.transaction_id r) txn_id
                        && Z.eqb (Transaction.user_id r) user_id)
              (visible (transactions (env st)) st))
        (on_env query_world st).

(** The timestamp block of both importers:
    [ts = None; if data.get(k): try: ts = fromisoformat(data[k])
      except (ValueError, TypeError): ts = utcnow()] *)
Definition parse_timestamp {R} (data : json) (k : string)
    : M (locals R) (option datetime) :=
  v <- lift (py_get data k JNull) ;;
  if py_truthy v then
    try_except
      (t <- lift (py_fromisoformat v) ;; ret (Some t))
      [ValueError; TypeError]
      (fun _ => t <- utcnow ;; ret (Some t))
  else ret None.

(** [ts or datetime.utcnow()]: a datetime is always true. *)
Definition or_utcnow {R} (ts : option datetime) : M (locals R) datetime :=
  match ts with
  | Some t => ret t
  | None => utcnow
  end.

(** The body of the loop of [migrate_wallets] for one line. *)
Definition wallet_line (valid_user_ids : gset Z) (line : string)
    : M (locals Wallet.t) unit :=
  let line := strip line in
  if String.eqb line "" then ret tt
  else
    try_except
      (data <- lift (match json_loads line with
                     | Some d => inr d
                     | None => inl JSONDecodeError
                     end) ;;
       v <- lift (py_get data "user_id" (JInt 0)) ;;
       user_id <- lift (py_int v) ;;
       if negb (bool_decide (user_id ∈ valid_user_ids)) then
         print (SkipWalletUser user_id) ;;
         incr_skipped
       else
         existing <- wallet_first user_id ;;
         match existing with
         | Some _ => print (SkipWalletExists user_id)
         | None =>
             created_at <- parse_timestamp data "created_at" ;;
             last_updated <- parse_timestamp data "last_updated" ;;
             b <- lift (py_get data "balance" (JFloat (S754_zero false))) ;;
             balance <- lift (py_float b) ;;
             created_at' <- or_utcnow created_at ;;
             last_updated' <- or_utcnow last_updated ;;
             session_add (Wallet.mk user_id balance created_at' last_updated') ;;
             incr_count ;;
             b' <- lift (py_get data "balance" (JInt 0)) ;;
             print (OkWallet user_id b')
         end)
      [JSONDecodeError; ValueError]
      (fun e => print (ErrorWalletLine e)).

(** [migrate_wallets(app)].  [wallet_file] is [None] when wallets.txt does
    not exist; [commit tbl batch] tells whether [db.session.commit()] of
    [batch] onto the table [tbl] succeeds. *)
Definition migrate_wallets (wallet_file : option (list string))
    (commit : list Wallet.t -> list Wallet.t -> bool) : M world nat :=
  fun w =>
    match wallet_file with
    | None => Val 0 (print_world SkipWalletsFile w)
    | Some lines =>
        let valid_user_ids : gset Z := list_to_set (users w) in
        match for_each (wallet_line valid_user_ids) lines
                (mkLocals (query_world w) [] 0 0) with
        | Exc e st => Exc e (env st)
        | Val _ st =>
            let w' := env st in
            if commit (wallets w') (pending st) then
              Val (count st)
                  (print_world (OkWallets (count st))
                     (mkWorld (users w') (wallets w' ++ pending st)
                              (transactions w') (ticks w') (queries w')
                              (stdout w')))
            else
              Val (count st) (print_world ErrorWallets w')
        end
    end.


(** The body of the loop of [migrate_transactions] for one line. *)
Definition transaction_line (valid_user_ids : gset Z) (line : string)
    : M (locals Transaction.t) unit :=
  let line := strip line in
  if String.eqb line "" then ret tt
  else
    try_except
      (data <- lift (match json_loads line with
                     | Some d => inr d
                     | None => inl JSONDecodeError
                     end) ;;
       txn_id <- lift (py_get data "id" (JStr "")) ;;
       v <- lift (py_get data "user_id" (JInt 0)) ;;
       user_id <- lift (py_int v) ;;
       if negb (bool_decide (user_id ∈ valid_user_ids)) then
         print (SkipTransactionUser user_id txn_id) ;;
         incr_skipped
       else
         existing <- transaction_first txn_id user_id ;;
         match existing with
         | Some _ => print (SkipTransactionExists txn_id user_id)
         | None =>
             timestamp <- parse_timestamp data "timestamp" ;;
             username <- lift (py_get data "username" JNull) ;;
             a <- lift (py_get data "amount" (JInt 0)) ;;
             amount <- lift (py_float a) ;;
             method <- lift (py_get data "method" (JStr "wallet")) ;;
             status <- lift (py_get data "status" (JStr "success")) ;;
             txn_type <- lift (py_get data "type" JNull) ;;
             description <- lift (py_get data "description" (JStr "")) ;;
             new_balance <- lift (py_get data "new_balance" JNull) ;;
             txn_date <- lift (py_get data "date" (JStr "")) ;;
             txn_time <- lift (py_get data "time" (JStr "")) ;;
             timestamp' <- or_utcnow timestamp ;;
             session_add
               (Transaction.mk txn_id user_id username amount method status
                  txn_type description new_balance txn_date txn_time
                  timestamp') ;;
             incr_count ;;
             a' <- lift (py_get data "amount" (JInt 0)) ;;
             print (OkTransaction txn_id user_id a')
         end)
      [JSONDecodeError; ValueError]
      (fun e => print (ErrorTransactionLine e)).

(** [migrate_transactions(app)], with [txn_file] and [commit] as for
    [migrate_wallets]. *)
Definition migrate_transactions (txn_file : option (list string))
    (commit : list Transaction.t -> list Transaction.t -> bool) : M world nat :=
  fun w =>
    match txn_file with
    | None => Val 0 (print_world SkipTransactionsFile w)
    | Some lines =>
        let valid_user_ids : gset Z := list_to_set (users w) in
        match for_each (transaction_line valid_user_ids) lines
                (mkLocals (query_world w) [] 0 0) with
        | Exc e st => Exc e (env st)
        | Val _ st =>
            let w' := env st in
            if commit (transactions w') (pending st) then
              Val (count st)
                  (print_world (OkTransactions (count st))
                     (mkWorld (users w') (wallets w')
                              (transactions w' ++ pending st)
                              (ticks w') (queries w') (stdout w')))
            else
              Val (count st) (print_world ErrorTransactions w')
        end
    end.

(** The script run as a program: the tables are created or verified (no row
    changes), then the two importers run in this order and the tally is
    printed.  An exception that leaves an importer ends the script. *)
Definition main (wallet_file txn_file : option (list string))
    (commit_wallets : list Wallet.t -> list Wallet.t -> bool)
    (commit_transactions : list Transaction.t -> list Transaction.t -> bool)
    : M world unit :=
  (fun w => Val tt (print_world TablesVerified (print_world Banner w))) ;;
  (fun w => Val tt (print_world HeadingWallets w)) ;;
  wallet_count <- migrate_wallets wallet_file commit_wallets ;;
  (fun w => Val tt (print_world HeadingTransactions w)) ;;
  txn_count <- migrate_transactions txn_file commit_transactions ;;
  (fun w => Val tt (print_world BackupNote
                      (print_world (Summary wallet_count txn_count) w))).

(** The world a run ends in, whether it returned or raised. *)
Definition final {St A} (r : result St A) : St :=
  match r with Val _ s => s | Exc _ s => s end.

End Importers.

(** ** What a line asks of the session

    Which rows an importer stages depends on a line through its key only.
    A [plan] is what one line does, as far as staging goes: nothing
    ([Ignore]: blank, not decodable, unknown user), an exception that leaves
    the importer before the existence check ([Escapes]), or an existence
    check for a key, with what follows when no row is found ([Check]). *)

Inductive after_check : Type :=
| Stages
| Drops
| Raises (e : exn).

Inductive plan (K : Type) : Type :=
| Ignore
| Escapes (e : exn)
| Check (k : K) (a : after_check).
Arguments Ignore {K}.
Arguments Escapes {K} _.
Arguments Check {K} _ _.

(** An exception raised in the [try] block of a line. *)
Definition line_handler {K} (e : exn) : plan K :=
  if caught_by [JSONDecodeError; ValueError] e then Ignore else Escapes e.

Definition check_handler (e : exn) : after_check :=
  if caught_by [JSONDecodeError; ValueError] e then Drops else Raises e.

Section Plans.
Context `{Platform}.

Definition wallet_plan (valid_user_ids : gset Z) (line : string) : plan Z :=
  let line := strip line in
  if String.eqb line "" then Ignore
  else
    match json_loads line with
    | None => Ignore
    | Some data =>
        match py_get data "user_id" (JInt 0) with
        | inl e => line_handler e
        | inr v =>
            match py_int v with
            | inl e => line_handler e
            | inr user_id =>
                if bool_decide (user_id ∈ valid_user_ids) then
                  Check user_id
                    (match py_get data "balance" (JFloat (S754_zero false)) with
                     | inl e => check_handler e
                     | inr b =>
                         match py_float b with
                         | inl e => check_handler e
                         | inr _ => Stages
                         end
                     end)
                else Ignore
            end
        end
    end.

Definition transaction_plan (valid_user_ids : gset Z) (line : string)
    : plan (json * Z) :=
  let line := strip line in
  if String.eqb line "" then Ignore
  else
    match json_loads line with
    | None => Ignore
    | Some data =>
        match py_get data "id" (JStr "") with
        | inl e => line_handler e
        | inr txn_id =>
            match py_get data "user_id" (JInt 0) with
            | inl e => line_handler e
            | inr v =>
                match py_int v with
                | inl e => line_handler e
                | inr user_id =>
                    if bool_decide (user_id ∈ valid_user_ids) then
                      Check (txn_id, user_id)
                        (match py_get data "amount" (JInt 0) with
                         | inl e => check_handler e
                         | inr a =>
                             match py_float a with
                             | inl e => check_handler e
                             | inr _ => Stages
                             end
                         end)
                    else Ignore
                end
            end
        end
    end.

End Plans.

Section Keys.
Context {K : Type} (same : K -> K -> bool).

(** Some key of [ks] matches [k]. *)
Definition seen (k : K) (ks : list K) : bool :=
  existsb (fun k' => same k' k) ks.

(** The keys staged by a list of plans, over a table with keys [tbl],
    starting with [staged]; or the exception that ends the loop. *)
Fixpoint run_plans (flush : bool) (tbl : list K) (ps : list (plan K))
    (staged : list K) : exn + list K :=
  match ps with
  | [] => inr staged
  | Ignore :: ps' => run_plans flush tbl ps' staged
  | Escapes e :: _ => inl e
  | Check k a :: ps' =>
      if seen k (tbl ++ (if flush then staged else [])) then
        run_plans flush tbl ps' staged
      else
        match a with
        | Stages => run_plans flush tbl ps' (staged ++ [k])
        | Drops => run_plans flush tbl ps' staged
        | Raises e => inl e
        end
  end.

End Keys.

Definition wallet_key (r : Wallet.t) : Z := Wallet.user_id r.

Definition transaction_key (r : Transaction.t) : json * Z :=
  (Transaction.transaction_id r, Transaction.user_id r).

Definition same_wallet_key (a b : Z) : bool := Z.eqb a b.

Definition same_transaction_key (a b : json * Z) : bool :=
  json_eqb (fst a) (fst b) && Z.eqb (snd a) (snd b).

(** The tables of [w'] are those of [w]. *)
Definition same_tables (w w' : world) : Prop :=
  users w' = users w /\ wallets w' = wallets w /\
  transactions w' = transactions w.

(** Between [st] and [st'] nothing was staged and no table changed. *)
Definition frame {R} (st st' : locals R) : Prop :=
  same_tables (env st) (env st') /\ pending st' = pending st /\
  count st' = count st.

(** [r] is what plan [p] allows for one line run from [st]: [key] gives the
    key of a row, [tbl] the table the existence check reads. *)
Definition step_ok `{Platform} {R K} (key : R -> K) (same : K -> K -> bool)
    (tbl : world -> list R) (p : plan K) (st : locals R)
    (r : result (locals R) unit) : Prop :=
  match p with
  | Ignore => exists st', r = Val tt st' /\ frame st st'
  | Escapes e => exists st', r = Exc e st' /\ frame st st'
  | Check k a =>
      if seen same k (map key (visible (tbl (env st)) st)) then
        exists st', r = Val tt st' /\ frame st st'
      else
        match a with
        | Stages =>
            exists st' row,
              r = Val tt st' /\ same_tables (env st) (env st') /\
              pending st' = pending st ++ [row] /\ key row = k /\
              count st' = S (count st)
        | Drops => exists st', r = Val tt st' /\ frame st st'
        | Raises e => exists st', r = Exc e st' /\ frame st st'
        end
  end.

(** Whether a run returned, rather than raised. *)
Definition returned {St A} (r : result St A) : bool :=
  match r with Val _ _ => true | Exc _ _ => false end.

(** Every commit succeeds. *)
Definition accept {R} (tbl batch : list R) : bool := true.

(** No commit succeeds. *)
Definition reject {R} (tbl batch : list R) : bool := false.

(** The field [k] of [data] holds a timestamp in ISO format: a non-empty
    string that [datetime.fromisoformat] reads. *)
Definition iso_field `{Platform} (data : json) (k : string) : option datetime :=
  match py_get data k JNull with
  | inr (JStr s) => if String.eqb s "" then None else fromisoformat s
  | _ => None
  end.

(** [t] was read from the clock between the states [st] and [st']. *)
Definition read_between `{Platform} {R} (st st' : locals R) (t : datetime)
    : Prop :=
  exists n, ticks (env st) <= n < ticks (env st') /\ t = clock n.

(** ** A platform to run the importers on

    Enough of the library to run the examples: [strip] removes ASCII white
    space at both ends, the numbers read from strings are decimal integers,
    and [json.loads] and [datetime.fromisoformat] know the texts listed
    below. *)

Definition is_space (c : Ascii.ascii) : bool :=
  let n := Ascii.nat_of_ascii c in
  Nat.eqb n 32 || (Nat.leb 9 n && Nat.leb n 13).

Fixpoint lstrip (s : string) : string :=
  match s with
  | EmptyString => EmptyString
  | String c s' => if is_space c then lstrip s' else s
  end.

Fixpoint rstrip (s : string) : string :=
  match s with
  | EmptyString => EmptyString
  | String c s' =>
      match rstrip s' with
      | EmptyString => if is_space c then EmptyString else String c EmptyString
      | r => String c r
      end
  end.

Fixpoint digits (s : string) (acc : Z) : option Z :=
  match s with
  | EmptyString => Some acc
  | String c s' =>
      let n := Ascii.nat_of_ascii c in
      if Nat.leb 48 n && Nat.leb n 57
      then digits s' (10 * acc + Z.of_nat (n - 48))%Z
      else None
  end.

Definition decimal (s : string) : option Z :=
  match s with
  | EmptyString => None
  | String c (String _ _ as s') =>
      if Nat.eqb (Ascii.nat_of_ascii c) 45
      then option_map Z.opp (digits s' 0%Z)
      else digits s 0%Z
  | _ => digits s 0%Z
  end.

(** The double quote. *)
Definition dq : string := String (Ascii.ascii_of_nat 34) EmptyString.

Definition member (k v : string) : string := dq ++ k ++ dq ++ ": " ++ v.

Definition text (s : string) : string := dq ++ s ++ dq.

(** [{"user_id": 7, "balance": 250.5}] *)
Definition line_wallet_7 : string :=
  "{" ++ member "user_id" "7" ++ ", " ++ member "balance" "250.5" ++ "}".

(** [{"user_id": 9, "balance": 40, "created_at": "2024-01-02T03:04:05",
      "last_updated": "yesterday"}] *)
Definition line_wallet_9 : string :=
  "{" ++ member "user_id" "9" ++ ", " ++ member "balance" "40" ++ ", "
      ++ member "created_at" (text "2024-01-02T03:04:05") ++ ", "
      ++ member "last_updated" (text "yesterday") ++ "}".

(** [{"user_id": 4, "balance": 10}], for a user that does not exist *)
Definition line_wallet_4 : string :=
  "{" ++ member "user_id" "4" ++ ", " ++ member "balance" "10" ++ "}".

(** [{"balance": 10}] *)
Definition line_no_user : string :=
  "{" ++ member "balance" "10" ++ "}".

(** [{"user_id": null}] *)
Definition line_null_user : string :=
  "{" ++ member "user_id" "null" ++ "}".

(** [{"id": "TXN1", "user_id": 3, "amount": -50}] *)
Definition line_txn1_3 : string :=
  "{" ++ member "id" (text "TXN1") ++ ", " ++ member "user_id" "3" ++ ", "
      ++ member "amount" "-50" ++ "}".

(** [{"id": "TXN1", "user_id": 7, "amount": 20}] *)
Definition line_txn1_7 : string :=
  "{" ++ member "id" (text "TXN1") ++ ", " ++ member "user_id" "7" ++ ", "
      ++ member "amount" "20" ++ "}".

Definition decoded : list (string * json) :=
  [ (line_wallet_7,
     JObj [("user_id", JInt 7); ("balance", JFloat (float_lit 501 (-1)))]);
    (line_wallet_9,
     JObj [("user_id", JInt 9); ("balance", JInt 40);
           ("created_at", JStr "2024-01-02T03:04:05");
           ("last_updated", JStr "yesterday")]);
    (line_wallet_4, JObj [("user_id", JInt 4); ("balance", JInt 10)]);
    (line_no_user, JObj [("balance", JInt 10)]);
    (line_null_user, JObj [("user_id", JNull)]);
    (line_txn1_3,
     JObj [("id", JStr "TXN1"); ("user_id", JInt 3); ("amount", JInt (-50))]);
    (line_txn1_7,
     JObj [("id", JStr "TXN1"); ("user_id", JInt 7); ("amount", JInt 20)]) ].

Definition sample (flush : bool) : Platform := {|
  strip := fun s => lstrip (rstrip s);
  json_loads := fun s =>
    option_map snd (find (fun kv => String.eqb (fst kv) s) decoded);
  int_of_str := decimal;
  float_of_str := fun s =>
    option_map (fun z => binary_normalize 53 1024 z 0 false) (decimal s);
  fromisoformat := fun s =>
    if String.eqb s "2024-01-02T03:04:05"
    then Some (mkDatetime 2024 1 2 3 4 5 0 None)
    else None;
  clock := fun n => mkDatetime 2026 11 3 12 0 0 (Z.of_nat n) None;
  autoflush := flush
|}.

(** A database with the users 3, 7 and 9 and no other row. *)
Definition w0 : world := mkWorld [3; 7; 9]%Z [] [] 0 0 [].

(** ** More of the examples *)

(** [data.get(k, d)] on the members of a decoded object. *)
Definition get_or (kvs : list (string * json)) (k : string) (d : json) : json :=
  match dict_lookup k kvs with Some v => v | None => d end.

(** The test of the loop, [if not line: continue], negated. *)
Definition nonblank `{Platform} (line : string) : bool :=
  negb (String.eqb (strip line) "").

(** [{"user_id": 7, "balance": "abc"}] *)
Definition line_bad_balance : string :=
  "{" ++ member "user_id" "7" ++ ", " ++ member "balance" (text "abc") ++ "}".

(** [{"user_id": "x7"}] *)
Definition line_bad_user : string :=
  "{" ++ member "user_id" (text "x7") ++ "}".

Definition decoded_more : list (string * json) :=
  [ (line_bad_balance, JObj [("user_id", JInt 7); ("balance", JStr "abc")]);
    (line_bad_user, JObj [("user_id", JStr "x7")]) ].

(** The platform [sample], knowing the two lines above as well. *)
Definition sample_more (flush : bool) : Platform := {|
  strip := @strip (sample flush);
  json_loads := fun s =>
    option_map snd
      (find (fun kv => String.eqb (fst kv) s) (decoded ++ decoded_more));
  int_of_str := @int_of_str (sample flush);
  float_of_str := @float_of_str (sample flush);
  fromisoformat := @fromisoformat (sample flush);
  clock := @clock (sample flush);
  autoflush := flush
|}.

(** What a plan lets out of the loop is not caught by the handler of the
    loop, and the key it checks belongs to a valid user. *)
Definition plan_sound {K} (user : K -> Z) (valid : gset Z) (p : plan K)
    : Prop :=
  match p with
  | Ignore => True
  | Escapes e => caught_by [JSONDecodeError; ValueError] e = false
  | Check k a =>
      user k ∈ valid /\
      match a with
      | Raises e => caught_by [JSONDecodeError; ValueError] e = false
      | _ => True
      end
  end.

(** * Properties *)

(** ** Frames *)

Lemma same_tables_refl w : same_tables w w.
Proof. by unfold same_tables. Qed.

Lemma same_tables_trans w1 w2 w3 :
  same_tables w1 w2 -> same_tables w2 w3 -> same_tables w1 w3.
Proof. unfold same_tables. intros (-> & -> & ->) (-> & -> & ->). done. Qed.

Lemma frame_refl {R} (st : locals R) : frame st st.
Proof. unfold frame. auto using same_tables_refl. Qed.

Lemma frame_on_env {R} (f : world -> world) (st : locals R) :
  same_tables (env st) (f (env st)) -> frame st (on_env f st).
Proof. unfold frame. simpl. auto. Qed.

Create HintDb frames.
#[local] Hint Resolve frame_refl same_tables_refl : frames.
#[local] Hint Extern 1 (frame _ (on_env _ _)) =>
  (apply frame_on_env; unfold same_tables; simpl; auto) : frames.
#[local] Hint Extern 1 (frame _ (mkLocals _ _ _ _)) =>
  (unfold frame, same_tables; simpl; auto) : frames.

Section StepLemmas.
Context `{Platform}.

Lemma py_fromisoformat_raises v e :
  py_fromisoformat v = inl e -> caught_by [ValueError; TypeError] e = true.
Proof.
  destruct v; simpl; try (intros [= <-]; reflexivity).
  destruct (fromisoformat s); intros [= <-]; reflexivity.
Qed.

(** On a decoded object the timestamp block returns, and stages nothing. *)
Lemma parse_timestamp_frame {R} kvs k (st : locals R) :
  exists o st', parse_timestamp (JObj kvs) k st = Val o st' /\ frame st st'.
Proof.
  unfold parse_timestamp, bind, lift, py_get, ret, raise, try_except.
  destruct (py_truthy _); [|eauto with frames].
  destruct (py_fromisoformat _) as [e|t] eqn:E; [|eauto with frames].
  rewrite (py_fromisoformat_raises _ _ E). unfold utcnow.
  eauto with frames.
Qed.

Lemma or_utcnow_frame {R} o (st : locals R) :
  exists t st', or_utcnow o st = Val t st' /\ frame st st'.
Proof. destruct o; simpl; unfold ret, utcnow; eauto with frames. Qed.

End StepLemmas.

(** ** Each line follows its plan *)

Lemma find_seen {R K} (key : R -> K) (same : K -> K -> bool) k rows :
  seen same k (map key rows) =
  match find (fun r => same (key r) k) rows with
  | Some _ => true
  | None => false
  end.
Proof.
  induction rows as [|r rows IH]; simpl; [done|].
  destruct (same (key r) k); simpl; auto.
Qed.

Ltac mstep := unfold bind, lift, ret, raise; cbn [negb].

Ltac framed :=
  unfold print, incr_skipped, incr_count, session_add, ret;
  repeat eexists;
  unfold frame, same_tables, on_env in *; simpl in *;
  intuition congruence.

Section PlanLemmas.
Context `{Platform}.

Lemma wallet_line_plan valid line st :
  step_ok wallet_key same_wallet_key wallets (wallet_plan valid line) st
    (wallet_line valid line st).
Proof.
  unfold wallet_line, wallet_plan.
  destruct (String.eqb (strip line) ""); [simpl; framed|].
  unfold try_except.
  destruct (json_loads (strip line)) as [data|]; mstep.
  2:{ simpl. framed. }
  destruct (py_get data "user_id" (JInt 0)) as [e|v] eqn:Eget; mstep.
  { destruct e; simpl; framed. }
  destruct (py_int v) as [e|u]; mstep.
  { destruct e; simpl; framed. }
  destruct (bool_decide (u ∈ valid)); mstep.
  2:{ simpl. framed. }
  unfold step_ok. rewrite find_seen. unfold wallet_first.
  change (fun r => same_wallet_key (wallet_key r) u)
    with (fun r => Z.eqb (Wallet.user_id r) u).
  destruct (find _ _) as [r|]; mstep.
  { framed. }
  destruct data; try discriminate Eget.
  destruct (parse_timestamp_frame kvs "created_at" (on_env query_world st))
    as (c & s1 & -> & F1).
  destruct (parse_timestamp_frame kvs "last_updated" s1)
    as (l & s2 & -> & F2).
  destruct (py_get (JObj kvs) "balance" (JFloat (S754_zero false)))
    as [e|b] eqn:Eb; [discriminate Eb|].
  destruct (py_float b) as [e|f].
  { destruct e; simpl; framed. }
  destruct (or_utcnow_frame c s2) as (c' & s3 & -> & F3).
  destruct (or_utcnow_frame l s3) as (l' & s4 & -> & F4).
  simpl. unfold print, incr_count, session_add.
  eexists _, (Wallet.mk u f c' l'). split; [reflexivity|].
  unfold frame, same_tables, on_env in *; simpl in *.
  replace (pending s4) with (pending st) by intuition congruence.
  intuition congruence.
Qed.

Lemma transaction_line_plan valid line st :
  step_ok transaction_key same_transaction_key transactions
    (transaction_plan valid line) st (transaction_line valid line st).
Proof.
  unfold transaction_line, transaction_plan.
  destruct (String.eqb (strip line) ""); [simpl; framed|].
  unfold try_except.
  destruct (json_loads (strip line)) as [data|]; mstep.
  2:{ simpl. framed. }
  destruct (py_get data "id" (JStr "")) as [e|txn_id] eqn:Eid; mstep.
  { destruct e; simpl; framed. }
  destruct data; try discriminate Eid.
  destruct (py_get (JObj kvs) "user_id" (JInt 0)) as [e|v] eqn:Eget;
    [discriminate Eget|]; mstep.
  destruct (py_int v) as [e|u]; mstep.
  { destruct e; simpl; framed. }
  destruct (bool_decide (u ∈ valid)); mstep.
  2:{ simpl. framed. }
  unfold step_ok. rewrite find_seen. unfold transaction_first.
  change (fun r => same_transaction_key (transaction_key r) (txn_id, u))
    with (fun r => json_eqb (Transaction.transaction_id r) txn_id
                   && Z.eqb (Transaction.user_id r) u).
  destruct (find _ _) as [r|]; mstep.
  { framed. }
  destruct (parse_timestamp_frame kvs "timestamp" (on_env query_world st))
    as (c & s1 & -> & F1).
  destruct (py_get (JObj kvs) "amount" (JInt 0)) as [e|a] eqn:Ea;
    [discriminate Ea|].
  unfold py_get at 1. cbv beta iota.
  destruct (py_float a) as [e|f].
  { destruct e; simpl; framed. }
  unfold py_get. cbv beta iota.
  destruct (or_utcnow_frame c s1) as (c' & s2 & -> & F2).
  unfold print, incr_count, session_add.
  eexists _, (Transaction.mk txn_id u _ f _ _ _ _ _ _ _ c').
  split; [reflexivity|].
  unfold frame, same_tables, on_env in *; simpl in *.
  replace (pending s2) with (pending st) by intuition congruence.
  intuition congruence.
Qed.

End PlanLemmas.

(** ** The loop follows the plans of its lines *)

Section Loop.
Context `{Platform} {A R K : Type}.
Variables (key : R -> K) (same : K -> K -> bool) (tbl : world -> list R).
Variables (body : A -> M (locals R) unit) (plan_of : A -> plan K).
Hypothesis tbl_same : forall w w', same_tables w w' -> tbl w' = tbl w.
Hypothesis body_ok : forall x st, step_ok key same tbl (plan_of x) st (body x st).

Lemma for_each_plans xs : forall st,
  match run_plans same autoflush (map key (tbl (env st))) (map plan_of xs)
          (map key (pending st)) with
  | inr ks =>
      exists st' new,
        for_each body xs st = Val tt st' /\ same_tables (env st) (env st') /\
        pending st' = pending st ++ new /\ map key (pending st') = ks /\
        count st' = count st + length new
  | inl e =>
      exists st', for_each body xs st = Exc e st' /\
                  same_tables (env st) (env st')
  end.
Proof.
  induction xs as [|x xs IH]; intros st.
  { simpl. exists st, []. rewrite app_nil_r. unfold ret.
    repeat split; auto using same_tables_refl. }
  assert (skip : (exists st1, body x st = Val tt st1 /\ frame st st1) ->
    match run_plans same autoflush (map key (tbl (env st))) (map plan_of xs)
            (map key (pending st)) with
    | inr ks =>
        exists st' new,
          for_each body (x :: xs) st = Val tt st' /\
          same_tables (env st) (env st') /\
          pending st' = pending st ++ new /\ map key (pending st') = ks /\
          count st' = count st + length new
    | inl e =>
        exists st', for_each body (x :: xs) st = Exc e st' /\
                    same_tables (env st) (env st')
    end).
  { intros (st1 & E & T & P & C). simpl. unfold bind. rewrite E.
    specialize (IH st1). rewrite (tbl_same _ _ T), P in IH.
    destruct (run_plans _ _ _ _ _).
    - destruct IH as (st' & -> & T'). eauto using same_tables_trans.
    - destruct IH as (st' & new & -> & T' & P' & Ks & C').
      exists st', new.
      split_and!; [reflexivity | eapply same_tables_trans; eauto
                  | congruence | assumption | congruence]. }
  specialize (body_ok x st). cbn [map].
  destruct (plan_of x) as [|e|k a]; simpl in body_ok; cbn [run_plans].
  - exact (skip body_ok).
  - destruct body_ok as (st1 & E & T & _). simpl. unfold bind. rewrite E. eauto.
  - unfold visible in body_ok. rewrite map_app in body_ok.
    assert (map key (if autoflush then pending st else []) =
            if autoflush then map key (pending st) else []) as Hm
      by (destruct autoflush; reflexivity).
    rewrite Hm in body_ok. clear Hm.
    destruct (seen same k _); [exact (skip body_ok)|].
    destruct a; [|exact (skip body_ok)|].
    + destruct body_ok as (st1 & row & E & T & P & Kr & C).
      simpl. unfold bind. rewrite E.
      specialize (IH st1). rewrite (tbl_same _ _ T), P, map_app in IH.
      simpl in IH. rewrite Kr in IH.
      destruct (run_plans _ _ _ _ _).
      * destruct IH as (st' & -> & T'). eauto using same_tables_trans.
      * destruct IH as (st' & new & -> & T' & P' & Ks & C').
        exists st', (row :: new).
        split_and!; [reflexivity | eapply same_tables_trans; eauto
                    | rewrite P', <- app_assoc; reflexivity | assumption
                    | rewrite C', C; simpl; lia].
    + destruct body_ok as (st1 & E & T & _).
      simpl. unfold bind. rewrite E. eauto.
Qed.

(** A loop that returns changed no table, and counted what it staged. *)
Lemma for_each_returns xs st st' :
  for_each body xs st = Val tt st' ->
  same_tables (env st) (env st') /\
  exists new, pending st' = pending st ++ new /\
              count st' = count st + length new.
Proof.
  intros E. pose proof (for_each_plans xs st) as L.
  destruct (run_plans _ _ _ _ _).
  - destruct L as (s & E' & _). congruence.
  - destruct L as (s & new & E' & T & P & _ & C).
    rewrite E in E'. injection E' as <-. eauto.
Qed.

End Loop.

(** ** Runs of plans *)

Section RunPlans.
Context {K : Type} (same : K -> K -> bool).

Lemma seen_app k (xs ys : list K) :
  seen same k (xs ++ ys) = seen same k xs || seen same k ys.
Proof. unfold seen. apply existsb_app. Qed.

(** A run only adds keys after the ones staged before. *)
Lemma run_plans_extends flush tbl ps : forall staged ks,
  run_plans same flush tbl ps staged = inr ks ->
  exists new, ks = staged ++ new.
Proof.
  induction ps as [|p ps IH]; intros staged ks; simpl.
  { intros [= <-]. exists []. by rewrite app_nil_r. }
  destruct p as [|e|k a]; [apply IH|discriminate|].
  destruct (seen same k _); [apply IH|].
  destruct a; [|apply IH|discriminate].
  intros E. destruct (IH _ _ E) as (new & ->).
  exists (k :: new). by rewrite <- app_assoc.
Qed.

Hypothesis same_refl : forall k, same k k = true.

(** After a run that returned, every key the plans check for and would
    stage is in the table or in the batch: over a table that holds them all,
    the same plans stage nothing and raise nothing. *)
Lemma run_plans_again flush flush' tbl tbl' ps : forall staged ks,
  run_plans same flush tbl ps staged = inr ks ->
  (forall k, seen same k (tbl ++ ks) = true -> seen same k tbl' = true) ->
  run_plans same flush' tbl' ps [] = inr [].
Proof.
  induction ps as [|p ps IH]; intros staged ks; simpl; [done|].
  destruct p as [|e|k a]; [apply IH|discriminate|].
  assert ((if flush' then @nil K else []) = []) as -> by by destruct flush'.
  rewrite app_nil_r.
  destruct (seen same k (tbl ++ _)) eqn:Es.
  - intros E Hin. destruct (run_plans_extends _ _ _ _ _ E) as (new & ->).
    rewrite Hin; [eapply IH; eauto|].
    rewrite seen_app in Es |- *. rewrite seen_app.
    apply orb_true_iff in Es as [->|Es]; [done|].
    destruct flush; [rewrite Es|discriminate Es]. by rewrite orb_true_r.
  - destruct a; [| |discriminate].
    2:{ intros E Hin. destruct (seen same k tbl'); eapply IH; eauto. }
    intros E Hin. destruct (run_plans_extends _ _ _ _ _ E) as (new & ->).
    rewrite Hin; [eapply IH; eauto|].
    rewrite !seen_app. unfold seen at 3. simpl. rewrite same_refl.
    simpl. by rewrite !orb_true_r.
Qed.

End RunPlans.

(** ** The importers follow the plans of their files *)

Section MigrateLemmas.
Context `{Platform}.

Lemma migrate_wallets_plans lines commit w :
  match run_plans same_wallet_key autoflush (map wallet_key (wallets w))
          (map (wallet_plan (list_to_set (users w))) lines) [] with
  | inl e =>
      exists w', migrate_wallets (Some lines) commit w = Exc e w' /\
                 same_tables w w'
  | inr ks =>
      exists w' batch,
        migrate_wallets (Some lines) commit w = Val (length batch) w' /\
        map wallet_key batch = ks /\
        users w' = users w /\ transactions w' = transactions w /\
        wallets w' =
          if commit (wallets w) batch then wallets w ++ batch else wallets w
  end.
Proof.
  unfold migrate_wallets.
  pose proof (for_each_plans wallet_key same_wallet_key wallets
                (wallet_line (list_to_set (users w)))
                (wallet_plan (list_to_set (users w)))
                (fun w w' T => proj1 (proj2 T))
                (wallet_line_plan (list_to_set (users w)))
                lines (mkLocals (query_world w) [] 0 0)) as L.
  simpl in L. destruct (run_plans _ _ _ _ _) as [e|ks].
  - destruct L as (st' & -> & T). exists (env st'). split; [done|].
    unfold same_tables in *. simpl in T. done.
  - destruct L as (st' & batch & -> & (U & W & T) & P & Ks & C).
    simpl in *. subst batch. rewrite C, W.
    destruct (commit _ _) eqn:E; eexists _, (pending st');
      (split; [reflexivity|]); simpl; rewrite ?W, ?E; done.
Qed.

Lemma migrate_transactions_plans lines commit w :
  match run_plans same_transaction_key autoflush
          (map transaction_key (transactions w))
          (map (transaction_plan (list_to_set (users w))) lines) [] with
  | inl e =>
      exists w', migrate_transactions (Some lines) commit w = Exc e w' /\
                 same_tables w w'
  | inr ks =>
      exists w' batch,
        migrate_transactions (Some lines) commit w = Val (length batch) w' /\
        map transaction_key batch = ks /\
        users w' = users w /\ wallets w' = wallets w /\
        transactions w' =
          if commit (transactions w) batch then transactions w ++ batch
          else transactions w
  end.
Proof.
  unfold migrate_transactions.
  pose proof (for_each_plans transaction_key same_transaction_key transactions
                (transaction_line (list_to_set (users w)))
                (transaction_plan (list_to_set (users w)))
                (fun w w' T => proj2 (proj2 T))
                (transaction_line_plan (list_to_set (users w)))
                lines (mkLocals (query_world w) [] 0 0)) as L.
  simpl in L. destruct (run_plans _ _ _ _ _) as [e|ks].
  - destruct L as (st' & -> & T). exists (env st'). split; [done|].
    unfold same_tables in *. simpl in T. done.
  - destruct L as (st' & batch & -> & (U & W & T) & P & Ks & C).
    simpl in *. subst batch. rewrite C, T.
    destruct (commit _ _) eqn:E; eexists _, (pending st');
      (split; [reflexivity|]); simpl; rewrite ?T, ?E; done.
Qed.

End MigrateLemmas.

(** ** Keys match themselves *)

Lemma pyfloat_eqb_refl f : pyfloat_eqb f f = true.
Proof.
  destruct f as [[]|[]| |[] m e]; simpl; auto;
    rewrite Pos.eqb_refl, Z.eqb_refl; reflexivity.
Qed.

Lemma json_eqb_refl : forall v, json_eqb v v = true.
Proof.
  fix IH 1. intros [|b|z|f|s|xs|kvs]; simpl.
  - reflexivity.
  - by destruct b.
  - apply Z.eqb_refl.
  - apply pyfloat_eqb_refl.
  - apply String.eqb_refl.
  - induction xs as [|x xs IHxs]; [reflexivity|].
    by rewrite IH, IHxs.
  - induction kvs as [|[k x] kvs IHkvs]; [reflexivity|].
    by rewrite String.eqb_refl, IH, IHkvs.
Qed.

Lemma same_wallet_key_refl k : same_wallet_key k k = true.
Proof. apply Z.eqb_refl. Qed.

Lemma same_transaction_key_refl k : same_transaction_key k k = true.
Proof.
  unfold same_transaction_key. by rewrite json_eqb_refl, Z.eqb_refl.
Qed.

(** ** Running an importer again *)

Lemma same_tables_print ev w : same_tables w (print_world ev w).
Proof. by unfold same_tables. Qed.

Section Rerun.
Context `{Platform}.

Lemma migrate_wallets_frame file commit w :
  users (final (migrate_wallets file commit w)) = users w /\
  transactions (final (migrate_wallets file commit w)) = transactions w.
Proof.
  destruct file as [lines|]; [|done].
  pose proof (migrate_wallets_plans lines commit w) as L.
  destruct (run_plans _ _ _ _ _).
  - destruct L as (w' & -> & U & _ & T). done.
  - destruct L as (w' & batch & -> & _ & U & T & _). done.
Qed.

Lemma migrate_transactions_frame file commit w :
  users (final (migrate_transactions file commit w)) = users w /\
  wallets (final (migrate_transactions file commit w)) = wallets w.
Proof.
  destruct file as [lines|]; [|done].
  pose proof (migrate_transactions_plans lines commit w) as L.
  destruct (run_plans _ _ _ _ _).
  - destruct L as (w' & -> & U & W & _). done.
  - destruct L as (w' & batch & -> & _ & U & W & _). done.
Qed.

(** After a run of the wallet importer whose commit succeeded, a second run
    over the same file, from any world with the users and wallets the first
    run left, changes no table, stages nothing, and returns exactly when the
    first run did. *)
Lemma migrate_wallets_rerun file commit w wb :
  let r1 := migrate_wallets file accept w in
  let r2 := migrate_wallets file commit wb in
  users wb = users (final r1) -> wallets wb = wallets (final r1) ->
  same_tables wb (final r2) /\ returned r2 = returned r1 /\
  (forall n w2, r2 = Val n w2 -> n = 0).
Proof.
  intros r1 r2 U W. subst r1 r2.
  destruct file as [lines|].
  2:{ simpl. split_and!; [apply same_tables_print|done|].
      intros n w2 E. by injection E. }
  pose proof (migrate_wallets_plans lines accept w) as L1.
  pose proof (migrate_wallets_plans lines commit wb) as L2.
  destruct (run_plans _ _ _ _ _) as [e|ks] eqn:E1 in L1.
  - destruct L1 as (w1 & R1 & U1 & W1 & T1). rewrite R1 in U, W |- *.
    simpl in U, W. rewrite U, W, U1, W1, E1 in L2.
    destruct L2 as (w2 & -> & T2). by split_and!.
  - destruct L1 as (w1 & batch & R1 & Ks & U1 & T1 & W1). rewrite R1 in U, W |- *.
    simpl in U, W. unfold accept in W1. rewrite U, W, U1, W1, map_app, Ks in L2.
    rewrite (run_plans_again _ same_wallet_key_refl _ _ _ _ _ _ _ E1) in L2
      by auto.
    destruct L2 as (w2 & batch2 & -> & Ks2 & U2 & T2 & W2).
    apply map_eq_nil in Ks2. subst batch2. rewrite app_nil_r in W2.
    split_and!; [|done|intros n w3 E; by injection E].
    unfold same_tables. simpl.
    destruct (commit _ _) in W2; split_and!; congruence.
Qed.

Lemma migrate_transactions_rerun file commit w wb :
  let r1 := migrate_transactions file accept w in
  let r2 := migrate_transactions file commit wb in
  users wb = users (final r1) ->
  transactions wb = transactions (final r1) ->
  same_tables wb (final r2) /\ returned r2 = returned r1 /\
  (forall n w2, r2 = Val n w2 -> n = 0).
Proof.
  intros r1 r2 U W. subst r1 r2.
  destruct file as [lines|].
  2:{ simpl. split_and!; [apply same_tables_print|done|].
      intros n w2 E. by injection E. }
  pose proof (migrate_transactions_plans lines accept w) as L1.
  pose proof (migrate_transactions_plans lines commit wb) as L2.
  destruct (run_plans _ _ _ _ _) as [e|ks] eqn:E1 in L1.
  - destruct L1 as (w1 & R1 & U1 & W1 & T1). rewrite R1 in U, W |- *.
    simpl in U, W. rewrite U, W, U1, T1, E1 in L2.
    destruct L2 as (w2 & -> & T2). by split_and!.
  - destruct L1 as (w1 & batch & R1 & Ks & U1 & W1 & T1).
    rewrite R1 in U, W |- *.
    simpl in U, W. unfold accept in T1. rewrite U, W, U1, T1, map_app, Ks in L2.
    rewrite (run_plans_again _ same_transaction_key_refl _ _ _ _ _ _ _ E1)
      in L2 by auto.
    destruct L2 as (w2 & batch2 & -> & Ks2 & U2 & W2 & T2).
    apply map_eq_nil in Ks2. subst batch2. rewrite app_nil_r in T2.
    split_and!; [|done|intros n w3 E; by injection E].
    unfold same_tables. simpl.
    destruct (commit _ _) in T2; split_and!; congruence.
Qed.

End Rerun.

Section Job.
Context `{Platform}.

(** The script is its two importers in sequence. *)
Lemma main_unfold wf tf cw ct w :
  main wf tf cw ct w =
  match migrate_wallets wf cw
          (print_world HeadingWallets
             (print_world TablesVerified (print_world Banner w))) with
  | Exc e w' => Exc e w'
  | Val n w' =>
      match migrate_transactions tf ct (print_world HeadingTransactions w') with
      | Exc e w'' => Exc e w''
      | Val m w'' =>
          Val tt (print_world BackupNote (print_world (Summary n m) w''))
      end
  end.
Proof.
  unfold main, bind. destruct (migrate_wallets _ _ _); [|done].
  by destruct (migrate_transactions _ _ _).
Qed.

End Job.

(** * The claims *)

(** C1. Running the whole job twice over the same two files leaves the
    tables as one run leaves them: when the commits of the first run
    succeed, every row it inserted is found by the existence check of the
    second run (by user id for a wallet, by transaction id and user id for a
    transaction), so the second run inserts no row, whatever its own commits
    answer, and the row counts are those after the first run. *)
Theorem rerun_inserts_no_rows `{Platform} wallet_file txn_file cw ct w :
  let w1 := final (main wallet_file txn_file accept accept w) in
  let w2 := final (main wallet_file txn_file cw ct w1) in
  (wallets w2 = wallets w1 /\ transactions w2 = transactions w1) /\
  (length (wallets w2) = length (wallets w1) /\
   length (transactions w2) = length (transactions w1)).
Proof.
  intros w1 w2.
  assert (same_tables w1 w2) as (_ & -> & ->); [|done].
  subst w1 w2. rewrite !main_unfold.
  set (a := print_world HeadingWallets _).
  assert (same_tables w a) as Ta by done.
  pose proof (migrate_wallets_frame wallet_file accept a) as (U1 & T1).
  destruct (migrate_wallets wallet_file accept a) as [n1 w1|e1 w1] eqn:R1.
  - set (b := print_world HeadingTransactions w1).
    pose proof (migrate_transactions_frame txn_file accept b) as (U2 & W2).
    set (r1t := migrate_transactions txn_file accept b) in *.
    set (c := final (match r1t with
                     | Val m w'' => Val tt (print_world BackupNote
                                      (print_world (Summary n1 m) w''))
                     | Exc e w'' => Exc e w'' end)).
    assert (same_tables (final r1t) c) as Tc by (subst c; by destruct r1t).
    set (a2 := print_world HeadingWallets _).
    assert (same_tables c a2) as Ta2 by done.
    pose proof (migrate_wallets_rerun wallet_file cw a a2) as Rw.
    simpl in Rw. rewrite R1 in Rw.
    destruct Rw as (Tw & Kw & _);
      [unfold same_tables in *; simpl in *; intuition congruence ..|].
    destruct (migrate_wallets wallet_file cw a2) as [n2 w2|e2 w2];
      [|discriminate Kw].
    set (b2 := print_world HeadingTransactions w2).
    pose proof (migrate_transactions_rerun txn_file ct b b2) as Rt.
    simpl in Rt. fold r1t in Rt.
    destruct Rt as (Tt & _);
      [unfold same_tables in *; simpl in *; intuition congruence ..|].
    destruct (migrate_transactions txn_file ct b2);
      unfold same_tables in *; simpl in *; intuition congruence.
  - set (a2 := print_world HeadingWallets _).
    pose proof (migrate_wallets_rerun wallet_file cw a a2) as Rw.
    simpl in Rw. rewrite R1 in Rw.
    destruct Rw as (Tw & Kw & _); [done..|].
    destruct (migrate_wallets wallet_file cw a2) as [n2 w2|e2 w2];
      [discriminate Kw|].
    unfold same_tables in *; simpl in *; intuition congruence.
Qed.

(** C7. When its input file does not exist, an importer returns 0 and
    raises nothing: the world it leaves is the one it started in, tables,
    clock and query counter included, with the one skip line printed. *)
Theorem missing_file_returns_zero `{Platform} cw ct w :
  migrate_wallets None cw w =
    Val 0 (mkWorld (users w) (wallets w) (transactions w) (ticks w)
                   (queries w) (stdout w ++ [SkipWalletsFile])) /\
  migrate_transactions None ct w =
    Val 0 (mkWorld (users w) (wallets w) (transactions w) (ticks w)
                   (queries w) (stdout w ++ [SkipTransactionsFile])).
Proof. split; reflexivity. Qed.

(** C3. A wallet line that decodes, and whose user id is not among the
    valid user ids, stages no row and leaves the migrated count as it was;
    the skipped counter grows by exactly one, the skip is printed, and the
    loop goes on with the next line. *)
Theorem unknown_user_wallet_skipped `{Platform}
    (valid : gset Z) line data v user_id rest (st : locals Wallet.t) :
  strip line <> "" ->
  json_loads (strip line) = Some data ->
  py_get data "user_id" (JInt 0) = inr v ->
  py_int v = inr user_id ->
  user_id ∉ valid ->
  let st' := mkLocals (print_world (SkipWalletUser user_id) (env st))
                      (pending st) (count st) (S (skipped st)) in
  wallet_line valid line st = Val tt st' /\
  for_each (wallet_line valid) (line :: rest) st =
    for_each (wallet_line valid) rest st'.
Proof.
  intros Hne Hj Hg Hi Hv st'.
  assert (wallet_line valid line st = Val tt st') as E.
  { unfold wallet_line. apply String.eqb_neq in Hne. rewrite Hne.
    unfold try_except. rewrite Hj. mstep. rewrite Hg, Hi.
    rewrite bool_decide_eq_false_2 by done. reflexivity. }
  split; [exact E|]. simpl. unfold bind. by rewrite E.
Qed.

Lemma unknown_user_wallet_skipped_witness :
  let st := mkLocals w0 [] 0 0 in
  wallet_line (H := sample true) (list_to_set (users w0)) line_wallet_4 st =
    Val tt (mkLocals (print_world (SkipWalletUser 4) w0) [] 0 1).
Proof.
  intros st.
  refine (proj1 (unknown_user_wallet_skipped (H := sample true)
            (list_to_set (users w0)) line_wallet_4
            (JObj [("user_id", JInt 4); ("balance", JInt 10)]) (JInt 4) 4 []
            st _ _ _ _ _)).
  - vm_compute. discriminate.
  - reflexivity.
  - reflexivity.
  - reflexivity.
  - intros Hin. apply (bool_decide_pack _) in Hin. vm_compute in Hin.
    exact Hin.
Defined.

(** C10. A decoded line without a [user_id] member is read as user id 0 by
    both importers.  When 0 is not a valid user id the line is a skip for
    an unknown user: the skip is printed and counted in [skipped], no parse
    error is printed, and no row is staged. *)
Theorem missing_user_id_reads_as_zero `{Platform}
    (valid : gset Z) line kvs
    (sw : locals Wallet.t) (st : locals Transaction.t) :
  strip line <> "" ->
  json_loads (strip line) = Some (JObj kvs) ->
  dict_lookup "user_id" kvs = None ->
  0%Z ∉ valid ->
  let txn_id :=
    match dict_lookup "id" kvs with Some v => v | None => JStr "" end in
  (py_get (JObj kvs) "user_id" (JInt 0) = inr (JInt 0) /\
   py_int (JInt 0) = inr 0%Z) /\
  wallet_line valid line sw =
    Val tt (mkLocals (print_world (SkipWalletUser 0) (env sw))
                     (pending sw) (count sw) (S (skipped sw))) /\
  transaction_line valid line st =
    Val tt (mkLocals (print_world (SkipTransactionUser 0 txn_id) (env st))
                     (pending st) (count st) (S (skipped st))).
Proof.
  intros Hne Hj Hk Hv txn_id. apply String.eqb_neq in Hne.
  split_and!.
  - simpl. by rewrite Hk.
  - reflexivity.
  - unfold wallet_line, try_except. rewrite Hne, Hj. mstep.
    unfold py_get. rewrite Hk. simpl.
    rewrite bool_decide_eq_false_2 by done. reflexivity.
  - unfold transaction_line, try_except. rewrite Hne, Hj. mstep.
    unfold py_get. rewrite Hk. simpl.
    rewrite bool_decide_eq_false_2 by done. reflexivity.
Qed.

Lemma missing_user_id_reads_as_zero_witness :
  wallet_line (H := sample true) (list_to_set (users w0)) line_no_user
      (mkLocals w0 [] 0 0) =
    Val tt (mkLocals (print_world (SkipWalletUser 0) w0) [] 0 1) /\
  transaction_line (H := sample true) (list_to_set (users w0)) line_no_user
      (mkLocals w0 [] 0 0) =
    Val tt (mkLocals (print_world (SkipTransactionUser 0 (JStr "")) w0)
                     [] 0 1).
Proof.
  refine (proj2 (missing_user_id_reads_as_zero (H := sample true)
            (list_to_set (users w0)) line_no_user [("balance", JInt 10)]
            (mkLocals w0 [] 0 0) (mkLocals w0 [] 0 0) _ _ _ _)).
  - vm_compute. discriminate.
  - reflexivity.
  - reflexivity.
  - intros Hin. apply (bool_decide_pack _) in Hin. vm_compute in Hin.
    exact Hin.
Defined.

Lemma find_none_all {A} (f : A -> bool) (l : list A) :
  (forall x, In x l -> f x = false) -> find f l = None.
Proof.
  induction l as [|a l IH]; simpl; [done|]. intros Hl.
  rewrite (Hl a) by auto. apply IH. auto.
Qed.

(** C9. The line [{"user_id": 7, "balance": 250.5}], when 7 is a valid user
    id and no wallet of user 7 is in sight, stages exactly one wallet, with
    user id 7, balance 250.5 and both timestamps read from the clock
    during the import, and adds one to the migrated count.  A file made of
    this one line, over a database with user 7 and no wallet for user 7,
    ends with that one row added to the table and returns 1. *)
Theorem wallet_for_user_7 `{Platform} line :
  strip line <> "" ->
  json_loads (strip line) =
    Some (JObj [("user_id", JInt 7);
                ("balance", JFloat (float_lit 501 (-1)))]) ->
  let row n :=
    Wallet.mk 7 (float_lit 501 (-1)) (clock n) (clock (S n)) in
  (forall (valid : gset Z) (st : locals Wallet.t),
     7%Z ∈ valid ->
     find (fun r => Z.eqb (Wallet.user_id r) 7)
          (visible (wallets (env st)) st) = None ->
     exists w',
       wallet_line valid line st =
         Val tt (mkLocals w' (pending st ++ [row (ticks (env st))])
                          (S (count st)) (skipped st)) /\
       same_tables (env st) w' /\ ticks w' = S (S (ticks (env st)))) /\
  (forall commit w,
     In 7%Z (users w) ->
     (forall r, In r (wallets w) -> Wallet.user_id r <> 7%Z) ->
     commit (wallets w) [row (ticks w)] = true ->
     migrate_wallets (Some [line]) commit w =
       Val 1 (mkWorld (users w) (wallets w ++ [row (ticks w)])
                      (transactions w) (S (S (ticks w))) (S (S (queries w)))
                      (stdout w ++
                         [OkWallet 7 (JFloat (float_lit 501 (-1)));
                          OkWallets 1]))).
Proof.
  intros Hne Hj row. apply String.eqb_neq in Hne.
  assert (forall (valid : gset Z) (st : locals Wallet.t),
     7%Z ∈ valid ->
     find (fun r => Z.eqb (Wallet.user_id r) 7)
          (visible (wallets (env st)) st) = None ->
     wallet_line valid line st =
       Val tt (mkLocals
                 (print_world (OkWallet 7 (JFloat (float_lit 501 (-1))))
                    (tick_world (tick_world (query_world (env st)))))
                 (pending st ++ [row (ticks (env st))])
                 (S (count st)) (skipped st))) as Step.
  { intros valid st Hv Hf.
    unfold wallet_line, try_except. rewrite Hne, Hj. mstep.
    set (data := JObj _).
    assert (py_get data "user_id" (JInt 0) = inr (JInt 7)) as ->
      by reflexivity.
    cbn [py_int]. rewrite bool_decide_eq_true_2 by done. mstep.
    unfold wallet_first. rewrite Hf.
    assert (forall k s, k = "created_at" \/ k = "last_updated" ->
              parse_timestamp (R := Wallet.t) data k s = Val None s)
      as Hts by (intros k s [-> | ->]; reflexivity).
    rewrite !Hts by auto.
    assert (py_get data "balance" (JFloat (S754_zero false)) =
            inr (JFloat (float_lit 501 (-1)))) as -> by reflexivity.
    assert (py_get data "balance" (JInt 0) =
            inr (JFloat (float_lit 501 (-1)))) as -> by reflexivity.
    reflexivity. }
  split.
  - intros valid st Hv Hf. eexists. split; [apply Step; done|]. by simpl.
  - intros commit w Hu Hw Hc. unfold migrate_wallets.
    cbn [for_each]. unfold bind. rewrite Step; cycle 1.
    { apply elem_of_list_to_set, list_elem_of_In, Hu. }
    { unfold visible. simpl. destruct autoflush; rewrite app_nil_r;
        apply find_none_all; intros r Hr; apply Z.eqb_neq; auto. }
    unfold ret. cbn [env pending count]. simpl app.
    unfold print_world, tick_world, query_world.
    cbn [users wallets transactions ticks queries stdout].
    rewrite Hc, <- app_assoc. reflexivity.
Qed.

Lemma wallet_for_user_7_witness :
  migrate_wallets (H := sample true) (Some [line_wallet_7]) accept w0 =
    Val 1 (mkWorld [3; 7; 9]%Z
             [Wallet.mk 7 (float_lit 501 (-1))
                (mkDatetime 2026 11 3 12 0 0 0 None)
                (mkDatetime 2026 11 3 12 0 0 1 None)]
             [] 2 2
             [OkWallet 7 (JFloat (float_lit 501 (-1))); OkWallets 1]).
Proof.
  refine (proj2 (wallet_for_user_7 (H := sample true) line_wallet_7 _ _)
            accept w0 _ _ _).
  - vm_compute. discriminate.
  - reflexivity.
  - simpl. auto.
  - intros r [].
  - reflexivity.
Defined.

(** ** Timestamps *)

Section Timestamps.
Context `{Platform}.

(** What the timestamp block leaves in its variable: the parsed timestamp
    when the field holds one, otherwise nothing or a reading of the clock. *)
Lemma parse_timestamp_value {R} kvs k (st : locals R) :
  exists o st',
    parse_timestamp (JObj kvs) k st = Val o st' /\ frame st st' /\
    ticks (env st) <= ticks (env st') /\
    match iso_field (JObj kvs) k with
    | Some t => o = Some t
    | None => o = None \/ exists t, o = Some t /\ read_between st st' t
    end.
Proof.
  unfold parse_timestamp, iso_field, bind, lift, ret, raise, try_except.
  destruct (py_get (JObj kvs) k JNull) as [e|v] eqn:E; [discriminate E|].
  destruct (py_truthy v) eqn:Tv.
  2:{ exists None, st. split_and!; auto with frames.
      destruct v; auto. simpl in Tv. apply negb_false_iff in Tv.
      rewrite Tv. auto. }
  destruct (py_fromisoformat v) as [e|t] eqn:Ef.
  - rewrite (py_fromisoformat_raises _ _ Ef). unfold utcnow.
    eexists _, _. split_and!; [reflexivity|auto with frames|simpl; lia|].
    assert (exists t, Some (clock (ticks (env st))) = Some t /\
              read_between st (on_env tick_world st) t) as Hr.
    { eexists. split; [reflexivity|]. exists (ticks (env st)). simpl.
      split; [lia|reflexivity]. }
    destruct v; auto. simpl in Ef, Tv. apply negb_true_iff in Tv.
    rewrite Tv. destruct (fromisoformat s); [discriminate Ef|auto].
  - exists (Some t), st. split_and!; auto with frames.
    destruct v; try discriminate Ef. simpl in Ef, Tv.
    apply negb_true_iff in Tv. rewrite Tv.
    destruct (fromisoformat s); [by injection Ef as ->|discriminate Ef].
Qed.

Lemma or_utcnow_value {R} o (st : locals R) :
  exists t st',
    or_utcnow o st = Val t st' /\ frame st st' /\
    ticks (env st) <= ticks (env st') /\
    match o with
    | Some t0 => t = t0
    | None => read_between st st' t
    end.
Proof.
  destruct o as [t0|]; simpl; unfold ret, utcnow.
  - exists t0, st. split_and!; auto with frames.
  - eexists _, _. split_and!; [reflexivity|auto with frames|simpl; lia|].
    exists (ticks (env st)). simpl. split; [lia|reflexivity].
Qed.

Lemma read_between_mono {R} (a b c d : locals R) t :
  ticks (env a) <= ticks (env b) -> ticks (env c) <= ticks (env d) ->
  read_between b c t -> read_between a d t.
Proof. intros ? ? (n & ? & ->). exists n. split; [lia|reflexivity]. Qed.

End Timestamps.

Lemma not_app_one {A} (l : list A) x : l ++ [x] <> l.
Proof.
  intros E. apply (f_equal (@length A)) in E.
  rewrite length_app in E. simpl in E. lia.
Qed.

(** C5. The fallback to the import time is taken field by field.  In the
    wallet a line stages, [created_at] is the timestamp parsed from the
    field when the field holds one, and otherwise (absent, or not parseable
    as ISO-8601) a reading of the clock taken while the line is processed;
    the same holds of [last_updated], whatever [created_at] was. *)
Theorem timestamp_fallback_per_field `{Platform}
    (valid : gset Z) line data (st st' : locals Wallet.t) row :
  strip line <> "" ->
  json_loads (strip line) = Some data ->
  wallet_line valid line st = Val tt st' ->
  pending st' = pending st ++ [row] ->
  match iso_field data "created_at" with
  | Some t => Wallet.created_at row = t
  | None => read_between st st' (Wallet.created_at row)
  end /\
  match iso_field data "last_updated" with
  | Some t => Wallet.last_updated row = t
  | None => read_between st st' (Wallet.last_updated row)
  end.
Proof.
  intros Hne Hj. apply String.eqb_neq in Hne.
  unfold wallet_line, try_except. rewrite Hne, Hj. mstep.
  assert (forall s : locals Wallet.t,
            frame st s -> pending s = pending st ++ [row] -> False) as No.
  { intros s (_ & P & _) E. rewrite P in E. symmetry in E.
    by apply not_app_one in E. }
  destruct (py_get data "user_id" (JInt 0)) as [e|v] eqn:Eget; mstep.
  { destruct e; simpl; try discriminate; intros [= <-] P;
      exfalso; eapply No; eauto; framed. }
  destruct (py_int v) as [e|u]; mstep.
  { destruct e; simpl; try discriminate; intros [= <-] P;
      exfalso; eapply No; eauto; framed. }
  destruct (bool_decide (u ∈ valid)); mstep.
  2:{ simpl. intros [= <-] P. exfalso; eapply No; eauto; framed. }
  unfold wallet_first. destruct (find _ _) as [r|]; mstep.
  { unfold print. intros [= <-] P. exfalso; eapply No; eauto; framed. }
  destruct data; try discriminate Eget.
  destruct (parse_timestamp_value kvs "created_at" (on_env query_world st))
    as (c & s1 & -> & F1 & L1 & V1).
  destruct (parse_timestamp_value kvs "last_updated" s1)
    as (l & s2 & -> & F2 & L2 & V2).
  destruct (py_get (JObj kvs) "balance" (JFloat (S754_zero false)))
    as [e|b] eqn:Eb; [discriminate Eb|].
  destruct (py_float b) as [e|f].
  { destruct e; simpl; try discriminate; intros [= <-] P;
      exfalso; eapply No; eauto; framed. }
  destruct (or_utcnow_value c s2) as (c' & s3 & -> & F3 & L3 & V3).
  destruct (or_utcnow_value l s3) as (l' & s4 & -> & F4 & L4 & V4).
  unfold session_add, incr_count, print, py_get. cbv beta iota.
  intros [= <-] P. cbn [pending on_env env] in P.
  assert (pending s4 = pending st) as Ps
    by (unfold frame in *; simpl in *; intuition congruence).
  rewrite Ps in P. apply app_inj_tail in P as [_ <-].
  cbn [Wallet.created_at Wallet.last_updated].
  simpl in L1. clear No.
  split.
  - destruct (iso_field _ "created_at").
    { subst c. exact V3. }
    destruct V1 as [-> | (t & -> & Rt)].
    + eapply read_between_mono; [| |exact V3]; simpl; lia.
    + subst c'. eapply read_between_mono; [| |exact Rt]; simpl; lia.
  - destruct (iso_field _ "last_updated").
    { subst l. exact V4. }
    destruct V2 as [-> | (t & -> & Rt)].
    + eapply read_between_mono; [| |exact V4]; simpl; lia.
    + subst l'. eapply read_between_mono; [| |exact Rt]; simpl; lia.
Qed.

Lemma timestamp_fallback_per_field_witness :
  let st := mkLocals w0 [] 0 0 in
  let row := Wallet.mk 9 (float_lit 40 0)
               (mkDatetime 2024 1 2 3 4 5 0 None)
               (mkDatetime 2026 11 3 12 0 0 0 None) in
  let st' := mkLocals (mkWorld [3; 7; 9]%Z [] [] 1 1 [OkWallet 9 (JInt 40)])
                      [row] 1 0 in
  wallet_line (H := sample true) (list_to_set (users w0)) line_wallet_9 st =
    Val tt st' /\
  Wallet.created_at row = mkDatetime 2024 1 2 3 4 5 0 None /\
  read_between (H := sample true) st st' (Wallet.last_updated row).
Proof.
  intros st row st'.
  assert (wallet_line (H := sample true) (list_to_set (users w0))
            line_wallet_9 st = Val tt st') as E by reflexivity.
  split; [exact E|].
  refine (timestamp_fallback_per_field (H := sample true)
            (list_to_set (users w0)) line_wallet_9
            (JObj [("user_id", JInt 9); ("balance", JInt 40);
                   ("created_at", JStr "2024-01-02T03:04:05");
                   ("last_updated", JStr "yesterday")])
            st st' row _ _ E _).
  - vm_compute. discriminate.
  - reflexivity.
  - reflexivity.
Defined.

(** C2. When the loop of an importer has run to its end and the one commit
    after it fails, the whole staged batch is rolled back: the tables are
    those from before the run, so none of the staged rows persists, the
    commit error is printed last, and the importer still returns the number
    of rows it staged. *)
Theorem failed_commit_rolls_back `{Platform} lines w :
  (forall commit (st : locals Wallet.t),
     for_each (wallet_line (list_to_set (users w))) lines
       (mkLocals (query_world w) [] 0 0) = Val tt st ->
     commit (wallets (env st)) (pending st) = false ->
     migrate_wallets (Some lines) commit w =
       Val (length (pending st)) (print_world ErrorWallets (env st)) /\
     same_tables w (print_world ErrorWallets (env st))) /\
  (forall commit (st : locals Transaction.t),
     for_each (transaction_line (list_to_set (users w))) lines
       (mkLocals (query_world w) [] 0 0) = Val tt st ->
     commit (transactions (env st)) (pending st) = false ->
     migrate_transactions (Some lines) commit w =
       Val (length (pending st)) (print_world ErrorTransactions (env st)) /\
     same_tables w (print_world ErrorTransactions (env st))).
Proof.
  split; intros commit st E C.
  - destruct (for_each_returns wallet_key same_wallet_key wallets _ _
                (fun w w' T => proj1 (proj2 T))
                (wallet_line_plan (list_to_set (users w))) _ _ _ E)
      as (T & new & P & N).
    simpl in P, N, T. subst new.
    unfold migrate_wallets. rewrite E. cbv zeta. rewrite C, N.
    split; [reflexivity|]. exact T.
  - destruct (for_each_returns transaction_key same_transaction_key
                transactions _ _
                (fun w w' T => proj2 (proj2 T))
                (transaction_line_plan (list_to_set (users w))) _ _ _ E)
      as (T & new & P & N).
    simpl in P, N, T. subst new.
    unfold migrate_transactions. rewrite E. cbv zeta. rewrite C, N.
    split; [reflexivity|]. exact T.
Qed.

Lemma failed_commit_rolls_back_witness :
  migrate_wallets (H := sample true) (Some [line_wallet_7]) reject w0 =
    Val 1 (mkWorld [3; 7; 9]%Z [] [] 2 2
             [OkWallet 7 (JFloat (float_lit 501 (-1))); ErrorWallets]) /\
  migrate_transactions (H := sample true) (Some [line_txn1_3]) reject w0 =
    Val 1 (mkWorld [3; 7; 9]%Z [] [] 1 2
             [OkTransaction (JStr "TXN1") 3 (JInt (-50)); ErrorTransactions]).
Proof.
  split.
  - refine (proj1 (proj1 (failed_commit_rolls_back (H := sample true)
              [line_wallet_7] w0) reject
              (mkLocals
                 (mkWorld [3; 7; 9]%Z [] [] 2 2
                    [OkWallet 7 (JFloat (float_lit 501 (-1)))])
                 [Wallet.mk 7 (float_lit 501 (-1))
                    (mkDatetime 2026 11 3 12 0 0 0 None)
                    (mkDatetime 2026 11 3 12 0 0 1 None)] 1 0) _ _)).
    + reflexivity.
    + reflexivity.
  - refine (proj1 (proj2 (failed_commit_rolls_back (H := sample true)
              [line_txn1_3] w0) reject
              (mkLocals
                 (mkWorld [3; 7; 9]%Z [] [] 1 2
                    [OkTransaction (JStr "TXN1") 3 (JInt (-50))])
                 [Transaction.mk (JStr "TXN1") 3 JNull
                    (binary_normalize 53 1024 (-50) 0 false)
                    (JStr "wallet") (JStr "success") JNull (JStr "") JNull
                    (JStr "") (JStr "")
                    (mkDatetime 2026 11 3 12 0 0 0 None)] 1 0) _ _)).
    + reflexivity.
    + reflexivity.
Defined.

(** C4. The duplicate check of the transaction importer is on the pair of
    transaction id and user id.  Two lines with the same transaction id and
    two different valid user ids, neither pair being in the table, are both
    inserted: the importer returns 2 and the table gains one row for each
    pair. *)
Theorem same_id_two_users_both_inserted `{Platform}
    l1 l2 d1 d2 txn_id v1 v2 u1 u2 a1 a2 f1 f2 commit w :
  strip l1 <> "" -> json_loads (strip l1) = Some d1 ->
  py_get d1 "id" (JStr "") = inr txn_id ->
  py_get d1 "user_id" (JInt 0) = inr v1 -> py_int v1 = inr u1 ->
  py_get d1 "amount" (JInt 0) = inr a1 -> py_float a1 = inr f1 ->
  strip l2 <> "" -> json_loads (strip l2) = Some d2 ->
  py_get d2 "id" (JStr "") = inr txn_id ->
  py_get d2 "user_id" (JInt 0) = inr v2 -> py_int v2 = inr u2 ->
  py_get d2 "amount" (JInt 0) = inr a2 -> py_float a2 = inr f2 ->
  u1 <> u2 -> In u1 (users w) -> In u2 (users w) ->
  (forall u, u = u1 \/ u = u2 ->
     find (fun r => json_eqb (Transaction.transaction_id r) txn_id
                    && Z.eqb (Transaction.user_id r) u)
          (transactions w) = None) ->
  (forall batch, commit (transactions w) batch = true) ->
  exists r1 r2 w',
    migrate_transactions (Some [l1; l2]) commit w = Val 2 w' /\
    transactions w' = transactions w ++ [r1; r2] /\
    transaction_key r1 = (txn_id, u1) /\ transaction_key r2 = (txn_id, u2).
Proof.
  intros N1 J1 I1 G1 P1 A1 F1 N2 J2 I2 G2 P2 A2 F2 Hne Hu1 Hu2 Hfree Hc.
  apply String.eqb_neq in N1, N2.
  pose proof (migrate_transactions_plans [l1; l2] commit w) as L.
  cbn [map] in L.
  assert (transaction_plan (list_to_set (users w)) l1 =
          Check (txn_id, u1) Stages) as E1.
  { unfold transaction_plan. rewrite N1, J1, I1, G1, P1, A1, F1.
    rewrite bool_decide_eq_true_2; [done|].
    by apply elem_of_list_to_set, list_elem_of_In. }
  assert (transaction_plan (list_to_set (users w)) l2 =
          Check (txn_id, u2) Stages) as E2.
  { unfold transaction_plan. rewrite N2, J2, I2, G2, P2, A2, F2.
    rewrite bool_decide_eq_true_2; [done|].
    by apply elem_of_list_to_set, list_elem_of_In. }
  assert (forall u, u = u1 \/ u = u2 ->
            seen same_transaction_key (txn_id, u)
              (map transaction_key (transactions w)) = false) as Hs.
  { intros u Hu. rewrite find_seen.
    change (fun r => same_transaction_key (transaction_key r) (txn_id, u))
      with (fun r => json_eqb (Transaction.transaction_id r) txn_id
                     && Z.eqb (Transaction.user_id r) u).
    by rewrite Hfree. }
  rewrite E1, E2 in L. cbn [run_plans] in L.
  rewrite !seen_app, !Hs in L by auto.
  assert (seen same_transaction_key (txn_id, u1)
            (if autoflush then [] else []) = false) as S1
    by by destruct autoflush.
  assert (seen same_transaction_key (txn_id, u2)
            (if autoflush then [] ++ [(txn_id, u1)] else []) = false) as S2.
  { destruct autoflush; [|done]. unfold seen, same_transaction_key. simpl.
    apply Z.eqb_neq in Hne. rewrite Hne. by rewrite andb_false_r. }
  rewrite S1, S2 in L. cbn [app orb] in L.
  destruct L as (w' & batch & R & Ks & _ & _ & T).
  destruct batch as [|r1 [|r2 [|r3 batch]]]; try discriminate Ks.
  rewrite Hc in T. cbn [map] in Ks.
  exists r1, r2, w'. split_and!; [exact R|exact T|congruence..].
Qed.

Lemma same_id_two_users_both_inserted_witness :
  exists r1 r2 w',
    migrate_transactions (H := sample true)
      (Some [line_txn1_3; line_txn1_7]) accept w0 = Val 2 w' /\
    transactions w' = transactions w0 ++ [r1; r2] /\
    transaction_key r1 = (JStr "TXN1", 3%Z) /\
    transaction_key r2 = (JStr "TXN1", 7%Z).
Proof.
  refine (same_id_two_users_both_inserted (H := sample true)
            line_txn1_3 line_txn1_7
            (JObj [("id", JStr "TXN1"); ("user_id", JInt 3);
                   ("amount", JInt (-50))])
            (JObj [("id", JStr "TXN1"); ("user_id", JInt 7);
                   ("amount", JInt 20)])
            (JStr "TXN1") (JInt 3) (JInt 7) 3 7 (JInt (-50)) (JInt 20)
            (binary_normalize 53 1024 (-50) 0 false)
            (binary_normalize 53 1024 20 0 false)
            accept w0 _ _ _ _ _ _ _ _ _ _ _ _ _ _ _ _ _ _ _).
  - vm_compute. discriminate.
  - reflexivity.
  - reflexivity.
  - reflexivity.
  - reflexivity.
  - reflexivity.
  - reflexivity.
  - vm_compute. discriminate.
  - reflexivity.
  - reflexivity.
  - reflexivity.
  - reflexivity.
  - reflexivity.
  - reflexivity.
  - lia.
  - simpl. auto.
  - simpl. auto.
  - reflexivity.
  - reflexivity.
Defined.

(** ** One wallet per user *)

Lemma seen_wallet_key k ks : seen same_wallet_key k ks = false -> k ∉ ks.
Proof.
  unfold seen, same_wallet_key. intros E Hin.
  apply list_elem_of_In in Hin.
  assert (existsb (fun k' => Z.eqb k' k) ks = true) as E'
    by (apply existsb_exists; exists k; split; [done|apply Z.eqb_refl]).
  congruence.
Qed.

(** With autoflush, a run stages a user id only when it is neither in the
    table nor staged already. *)
Lemma run_plans_NoDup tbl ps : forall staged ks,
  run_plans same_wallet_key true tbl ps staged = inr ks ->
  NoDup (tbl ++ staged) -> NoDup (tbl ++ ks).
Proof.
  induction ps as [|p ps IH]; intros staged ks; simpl.
  { by intros [= <-]. }
  destruct p as [|e|k a]; [apply IH|discriminate|].
  destruct (seen same_wallet_key k (tbl ++ staged)) eqn:Es; [apply IH|].
  destruct a; [|apply IH|discriminate].
  intros E Hn. apply (IH _ _ E). rewrite app_assoc.
  apply NoDup_app. split_and!; [done| |apply NoDup_singleton].
  intros x Hx Hk. apply list_elem_of_singleton in Hk as ->.
  by apply seen_wallet_key in Es.
Qed.

(** C8. The wallet importer keeps at most one wallet per user id: from a
    table with no two wallets of one user, any file, lines that repeat a
    user id included, leaves a table with no two wallets of one user.  The
    storage layer is either a session with autoflush, where the existence
    check sees the wallets staged earlier in the run, or one whose commit
    refuses a batch that would give a user two wallets. *)
Theorem one_wallet_per_user `{Platform} file commit w :
  (autoflush = true \/
   forall tbl batch,
     commit tbl batch = true -> NoDup (map Wallet.user_id (tbl ++ batch))) ->
  NoDup (map Wallet.user_id (wallets w)) ->
  NoDup (map Wallet.user_id
           (wallets (final (migrate_wallets file commit w)))).
Proof.
  intros Hs Hw. destruct file as [lines|]; [|exact Hw].
  pose proof (migrate_wallets_plans lines commit w) as L.
  destruct (run_plans _ _ _ _ _) as [e|ks] eqn:E.
  - destruct L as (w' & -> & _ & W & _). simpl. by rewrite W.
  - destruct L as (w' & batch & -> & Ks & _ & _ & W). simpl. rewrite W.
    destruct (commit (wallets w) batch) eqn:C; [|exact Hw].
    destruct Hs as [Hf|Hc]; [|by apply Hc].
    rewrite Hf in E. rewrite map_app.
    change (map Wallet.user_id batch) with (map wallet_key batch).
    rewrite Ks. eapply run_plans_NoDup; [exact E|]. by rewrite app_nil_r.
Qed.

Lemma one_wallet_per_user_witness :
  NoDup (map Wallet.user_id
           (wallets (final (migrate_wallets (H := sample true)
                              (Some [line_wallet_7; line_wallet_7])
                              accept w0)))) /\
  length (wallets (final (migrate_wallets (H := sample true)
                            (Some [line_wallet_7; line_wallet_7])
                            accept w0))) = 1.
Proof.
  split; [|reflexivity].
  apply (one_wallet_per_user (H := sample true)
           (Some [line_wallet_7; line_wallet_7]) accept w0).
  - left. reflexivity.
  - simpl. constructor.
Defined.

(** Without autoflush and with a commit that accepts any batch, two lines
    for one user give that user two wallets. *)
Remark two_wallets_without_flush_or_constraint :
  map Wallet.user_id
    (wallets (final (migrate_wallets (H := sample false)
                       (Some [line_wallet_7; line_wallet_7]) accept w0)))
  = [7; 7]%Z.
Proof. reflexivity. Qed.

(** C6 (the code departs from it). A line whose user id is [null] is not
    skipped: [int(None)] raises [TypeError], which the handler of the loop,
    [except (json.JSONDecodeError, ValueError)], does not catch.  The
    exception leaves the importer at that line: the lines after it are not
    read, nothing is committed, and no count is returned. *)
Theorem null_user_id_ends_the_importer `{Platform} line rest cw ct w :
  strip line <> "" ->
  json_loads (strip line) = Some (JObj [("user_id", JNull)]) ->
  migrate_wallets (Some (line :: rest)) cw w = Exc TypeError (query_world w) /\
  migrate_transactions (Some (line :: rest)) ct w =
    Exc TypeError (query_world w).
Proof.
  intros Hne Hj. apply String.eqb_neq in Hne.
  unfold migrate_wallets, migrate_transactions. cbn [for_each].
  split.
  - unfold bind at 1. unfold wallet_line, try_except. rewrite Hne, Hj.
    reflexivity.
  - unfold bind at 1. unfold transaction_line, try_except. rewrite Hne, Hj.
    reflexivity.
Qed.

Lemma null_user_id_ends_the_importer_witness :
  migrate_wallets (H := sample true)
    (Some [line_null_user; line_wallet_7]) accept w0 =
    Exc TypeError (query_world w0) /\
  migrate_transactions (H := sample true)
    (Some [line_null_user; line_txn1_3]) accept w0 =
    Exc TypeError (query_world w0).
Proof.
  split.
  - refine (proj1 (null_user_id_ends_the_importer (H := sample true)
              line_null_user [line_wallet_7] accept accept w0 _ _)).
    + vm_compute. discriminate.
    + reflexivity.
  - refine (proj2 (null_user_id_ends_the_importer (H := sample true)
              line_null_user [line_txn1_3] accept accept w0 _ _)).
    + vm_compute. discriminate.
    + reflexivity.
Defined.

(** ** The scenarios, run *)

(** The line [{"id": "TXN1", "user_id": 3, "amount": -50}] with user 3
    present: the first run inserts one transaction, the second run finds it
    and skips the line, and one row is in the table after both. *)
Example txn1_run_twice :
  let run := main (H := sample true) None (Some [line_txn1_3]) accept accept in
  let w1 := final (run w0) in
  let w2 := final (run w1) in
  length (transactions w1) = 1 /\ length (transactions w2) = 1 /\
  stdout w2 = stdout w1 ++
    [Banner; TablesVerified; HeadingWallets; SkipWalletsFile;
     HeadingTransactions; SkipTransactionExists (JStr "TXN1") 3;
     OkTransactions 0; Summary 0 0; BackupNote].
Proof. repeat split; reflexivity. Qed.

(** What the handler of the loop does catch: a line that [json.loads]
    rejects is printed as an error and the loop goes on. *)
Remark undecodable_line_is_skipped `{Platform}
    (valid : gset Z) line rest (st : locals Wallet.t) :
  strip line <> "" ->
  json_loads (strip line) = None ->
  for_each (wallet_line valid) (line :: rest) st =
    for_each (wallet_line valid) rest
      (on_env (print_world (ErrorWalletLine JSONDecodeError)) st).
Proof.
  intros Hne Hj. apply String.eqb_neq in Hne.
  cbn [for_each]. unfold bind at 1.
  unfold wallet_line, try_except. rewrite Hne, Hj. reflexivity.
Qed.

(** * Further properties of the importers *)

(** ** More on runs of plans *)

Section RunPlansMore.
Context {K : Type} (same : K -> K -> bool).

(** Every key a run stages is the key of a check of one of its plans. *)
Lemma run_plans_Forall (P : K -> Prop) flush tbl ps : forall staged ks,
  run_plans same flush tbl ps staged = inr ks ->
  (forall k a, In (Check k a) ps -> P k) ->
  Forall P staged -> Forall P ks.
Proof.
  induction ps as [|p ps IH]; intros staged ks; simpl.
  { by intros [= <-]. }
  intros E Hp Hs.
  assert (forall k a, In (Check k a) ps -> P k) as Hp' by eauto.
  destruct p as [|e|k a]; [eauto|discriminate|].
  destruct (seen same k _); [eauto|].
  destruct a; [|eauto|discriminate].
  eapply IH; [exact E|exact Hp'|].
  apply Forall_app. split; [exact Hs|]. repeat constructor. eauto.
Qed.

(** A run stages at most one key per plan. *)
Lemma run_plans_length flush tbl ps : forall staged ks,
  run_plans same flush tbl ps staged = inr ks ->
  length ks <= length staged + length ps.
Proof.
  induction ps as [|p ps IH]; intros staged ks; simpl.
  { intros [= <-]. lia. }
  intros E.
  destruct p as [|e|k a]; [apply IH in E; lia|discriminate|].
  destruct (seen same k _); [apply IH in E; lia|].
  destruct a; [|apply IH in E; lia|discriminate].
  apply IH in E. rewrite length_app in E. simpl in E. lia.
Qed.


Hypothesis same_refl : forall k, same k k = true.

Lemma seen_false_not_In k ks : seen same k ks = false -> ~ In k ks.
Proof.
  unfold seen. intros E Hin.
  assert (existsb (fun k' => same k' k) ks = true) as E'
    by (apply existsb_exists; exists k; split; [done|apply same_refl]).
  congruence.
Qed.

(** With autoflush, a run stages a key only when it is neither in the
    table nor staged already. *)
Lemma run_plans_distinct tbl ps : forall staged ks,
  run_plans same true tbl ps staged = inr ks ->
  NoDup (tbl ++ staged) -> NoDup (tbl ++ ks).
Proof.
  induction ps as [|p ps IH]; intros staged ks; simpl.
  { by intros [= <-]. }
  destruct p as [|e|k a]; [apply IH|discriminate|].
  destruct (seen same k (tbl ++ staged)) eqn:Es; [apply IH|].
  destruct a; [|apply IH|discriminate].
  intros E Hn. apply (IH _ _ E). rewrite app_assoc.
  apply NoDup_app. split_and!; [done| |apply NoDup_singleton].
  intros x Hx Hk. apply list_elem_of_singleton in Hk as ->.
  apply seen_false_not_In in Es. apply Es. by apply list_elem_of_In.
Qed.

End RunPlansMore.

Section PlanFacts.
Context `{Platform}.

Lemma line_handler_sound {K} (user : K -> Z) valid e :
  plan_sound user valid (line_handler e).
Proof. unfold line_handler. by destruct (caught_by _ e) eqn:E. Qed.

Lemma check_handler_sound e :
  match check_handler e with
  | Raises e' => caught_by [JSONDecodeError; ValueError] e' = false
  | _ => True
  end.
Proof. unfold check_handler. by destruct (caught_by _ e) eqn:E. Qed.

Lemma wallet_plan_sound valid line :
  plan_sound (fun k => k) valid (wallet_plan valid line).
Proof.
  unfold wallet_plan.
  destruct (String.eqb _ _); [done|].
  destruct (json_loads _) as [data|]; [|done].
  destruct (py_get data _ _) as [e|v]; [apply line_handler_sound|].
  destruct (py_int v) as [e|u]; [apply line_handler_sound|].
  destruct (bool_decide (u ∈ valid)) eqn:Hu; [|done].
  apply bool_decide_eq_true in Hu. simpl. split; [done|].
  destruct (py_get data _ _) as [e|b]; [apply check_handler_sound|].
  destruct (py_float b) as [e|f]; [apply check_handler_sound|done].
Qed.

Lemma transaction_plan_sound valid line :
  plan_sound snd valid (transaction_plan valid line).
Proof.
  unfold transaction_plan.
  destruct (String.eqb _ _); [done|].
  destruct (json_loads _) as [data|]; [|done].
  destruct (py_get data "id" _) as [e|txn_id]; [apply line_handler_sound|].
  destruct (py_get data _ _) as [e|v]; [apply line_handler_sound|].
  destruct (py_int v) as [e|u]; [apply line_handler_sound|].
  destruct (bool_decide (u ∈ valid)) eqn:Hu; [|done].
  apply bool_decide_eq_true in Hu. simpl. split; [done|].
  destruct (py_get data _ _) as [e|b]; [apply check_handler_sound|].
  destruct (py_float b) as [e|f]; [apply check_handler_sound|done].
Qed.

End PlanFacts.

(** ** What leaves an importer, and what it leaves behind *)





Lemma staged_users_valid `{Platform} {K} (same : K -> K -> bool)
    (user : K -> Z) (us : list Z) (plan_of : string -> plan K)
    flush tbl lines ks :
  (forall line, plan_sound user (list_to_set us) (plan_of line)) ->
  run_plans same flush tbl (map plan_of lines) [] = inr ks ->
  Forall (fun k => In (user k) us) ks.
Proof.
  intros Hs E.
  eapply run_plans_Forall; [exact E| |constructor].
  intros k a Hin. apply in_map_iff in Hin as (line & Hp & _).
  specialize (Hs line). rewrite Hp in Hs. destruct Hs as [Hv _].
  apply elem_of_list_to_set in Hv. by apply list_elem_of_In.
Qed.

(** X2. The wallet importer only appends to the wallets table: the rows that
    were there stay as they were, first and in their order, the users and
    the transactions are untouched, and every wallet added belongs to a
    user of the User table. *)
Theorem wallets_only_appended `{Platform} file commit w :
  let w' := final (migrate_wallets file commit w) in
  users w' = users w /\ transactions w' = transactions w /\
  exists new,
    wallets w' = wallets w ++ new /\
    Forall (fun r => In (Wallet.user_id r) (users w)) new.
Proof.
  intros w'. subst w'.
  destruct (migrate_wallets_frame file commit w) as (U & T).
  split_and!; [exact U|exact T|].
  destruct file as [lines|].
  2:{ exists []. simpl. by rewrite app_nil_r. }
  pose proof (migrate_wallets_plans lines commit w) as L.
  destruct (run_plans _ _ _ _ _) as [e|ks] eqn:R.
  - destruct L as (w1 & -> & _ & W & _). exists [].
    simpl. by rewrite app_nil_r.
  - destruct L as (w1 & batch & -> & Ks & _ & _ & W). simpl. rewrite W.
    destruct (commit _ _).
    + exists batch. split; [done|].
      pose proof (staged_users_valid same_wallet_key (fun k => k) (users w)
                    _ _ _ _ _ (wallet_plan_sound _) R) as F.
      rewrite <- Ks in F. by apply Forall_map in F.
    + exists []. by rewrite app_nil_r.
Qed.

(** X3. The transaction importer only appends to the transactions table, leaves
    the users and the wallets untouched, and every transaction added
    belongs to a user of the User table. *)
Theorem transactions_only_appended `{Platform} file commit w :
  let w' := final (migrate_transactions file commit w) in
  users w' = users w /\ wallets w' = wallets w /\
  exists new,
    transactions w' = transactions w ++ new /\
    Forall (fun r => In (Transaction.user_id r) (users w)) new.
Proof.
  intros w'. subst w'.
  destruct (migrate_transactions_frame file commit w) as (U & T).
  split_and!; [exact U|exact T|].
  destruct file as [lines|].
  2:{ exists []. simpl. by rewrite app_nil_r. }
  pose proof (migrate_transactions_plans lines commit w) as L.
  destruct (run_plans _ _ _ _ _) as [e|ks] eqn:R.
  - destruct L as (w1 & -> & _ & _ & W). exists [].
    simpl. by rewrite app_nil_r.
  - destruct L as (w1 & batch & -> & Ks & _ & _ & W). simpl. rewrite W.
    destruct (commit _ _).
    + exists batch. split; [done|].
      pose proof (staged_users_valid same_transaction_key snd (users w)
                    _ _ _ _ _ (transaction_plan_sound _) R) as F.
      rewrite <- Ks in F. by apply Forall_map in F.
    + exists []. by rewrite app_nil_r.
Qed.

(** X4. When the commit succeeds the returned count is the number of rows the
    importer added to its table, and it is at most the number of lines of
    the file. *)
Theorem returned_count_is_rows_added `{Platform} lines w :
  (forall commit n w',
     migrate_wallets (Some lines) commit w = Val n w' ->
     (forall batch, commit (wallets w) batch = true) ->
     length (wallets w') = length (wallets w) + n /\ n <= length lines) /\
  (forall commit n w',
     migrate_transactions (Some lines) commit w = Val n w' ->
     (forall batch, commit (transactions w) batch = true) ->
     length (transactions w') = length (transactions w) + n /\
     n <= length lines).
Proof.
  split; intros commit n w' E C.
  - pose proof (migrate_wallets_plans lines commit w) as L.
    destruct (run_plans _ _ _ _ _) as [e|ks] eqn:R.
    { destruct L as (w1 & E1 & _). congruence. }
    destruct L as (w1 & batch & E1 & Ks & _ & _ & W).
    rewrite E in E1. injection E1 as -> ->. rewrite W, C, length_app.
    split; [done|]. apply run_plans_length in R.
    rewrite <- Ks, !length_map in R. simpl in R. lia.
  - pose proof (migrate_transactions_plans lines commit w) as L.
    destruct (run_plans _ _ _ _ _) as [e|ks] eqn:R.
    { destruct L as (w1 & E1 & _). congruence. }
    destruct L as (w1 & batch & E1 & Ks & _ & _ & W).
    rewrite E in E1. injection E1 as -> ->. rewrite W, C, length_app.
    split; [done|]. apply run_plans_length in R.
    rewrite <- Ks, !length_map in R. simpl in R. lia.
Qed.

Lemma returned_count_is_rows_added_witness :
  let lines := [line_wallet_7; line_wallet_4; line_wallet_9; line_wallet_7] in
  let w' := final (migrate_wallets (H := sample true) (Some lines) accept w0) in
  migrate_wallets (H := sample true) (Some lines) accept w0 = Val 2 w' /\
  length (wallets w') = length (wallets w0) + 2 /\ 2 <= length lines.
Proof.
  intros lines w'.
  assert (migrate_wallets (H := sample true) (Some lines) accept w0 =
          Val 2 w') as E by reflexivity.
  split; [exact E|].
  refine (proj1 (returned_count_is_rows_added (H := sample true) lines w0)
            accept 2 w' E _).
  intros batch. reflexivity.
Defined.

(** X5. The script has no transaction across its two phases: the wallets table
    the script ends with is the one the wallet importer left, whatever the
    transaction importer then reads, commits or raises; and when the wallet
    importer raises, the script ends with that exception and the
    transactions table it started with. *)
Theorem wallet_phase_stands_alone `{Platform} wf tf cw ct w :
  let a := print_world HeadingWallets
             (print_world TablesVerified (print_world Banner w)) in
  let r := main wf tf cw ct w in
  wallets (final r) = wallets (final (migrate_wallets wf cw a)) /\
  users (final r) = users w /\
  match migrate_wallets wf cw a with
  | Exc e wa => r = Exc e wa /\ transactions (final r) = transactions w
  | Val _ _ => True
  end.
Proof.
  intros a r. subst r. rewrite main_unfold. fold a.
  destruct (migrate_wallets_frame wf cw a) as (U & T).
  assert (users a = users w /\ transactions a = transactions w)
    as (Ua & Ta) by done.
  destruct (migrate_wallets wf cw a) as [n wa|e wa]; simpl in U, T |- *.
  - set (b := print_world HeadingTransactions wa).
    destruct (migrate_transactions_frame tf ct b) as (U' & W').
    assert (users b = users wa /\ wallets b = wallets wa)
      as (Ub & Wb) by done.
    destruct (migrate_transactions tf ct b); simpl in *.
    all: split_and!; try done; congruence.
  - split_and!; try done; congruence.
Qed.

(** X6. The transaction importer keeps the pairs of transaction id and user id
    distinct: from a table where no two rows have the same pair, any file,
    lines that repeat a pair included, leaves a table where no two rows have
    the same pair.  The storage layer is either a session with autoflush or
    one whose commit refuses a batch that would repeat a pair. *)
Theorem one_transaction_per_pair `{Platform} file commit w :
  (autoflush = true \/
   forall tbl batch,
     commit tbl batch = true -> NoDup (map transaction_key (tbl ++ batch))) ->
  NoDup (map transaction_key (transactions w)) ->
  NoDup (map transaction_key
           (transactions (final (migrate_transactions file commit w)))).
Proof.
  intros Hs Hw. destruct file as [lines|]; [|exact Hw].
  pose proof (migrate_transactions_plans lines commit w) as L.
  destruct (run_plans _ _ _ _ _) as [e|ks] eqn:E.
  - destruct L as (w' & -> & _ & _ & T). simpl. by rewrite T.
  - destruct L as (w' & batch & -> & Ks & _ & _ & T). simpl. rewrite T.
    destruct (commit (transactions w) batch) eqn:C; [|exact Hw].
    destruct Hs as [Hf|Hc]; [|by apply Hc].
    rewrite Hf in E. rewrite map_app, Ks.
    eapply (run_plans_distinct _ same_transaction_key_refl); [exact E|].
    by rewrite app_nil_r.
Qed.

Lemma one_transaction_per_pair_witness :
  let w' := final (migrate_transactions (H := sample true)
                     (Some [line_txn1_3; line_txn1_7; line_txn1_3])
                     accept w0) in
  NoDup (map transaction_key (transactions w')) /\
  map transaction_key (transactions w') =
    [(JStr "TXN1", 3%Z); (JStr "TXN1", 7%Z)].
Proof.
  intros w'. split; [|reflexivity].
  apply (one_transaction_per_pair (H := sample true)
           (Some [line_txn1_3; line_txn1_7; line_txn1_3]) accept w0).
  - left. reflexivity.
  - simpl. constructor.
Defined.

(** ** Blank lines *)

Lemma for_each_nonblank `{Platform} {R}
    (body : string -> M (locals R) unit) lines :
  (forall line st, nonblank line = false -> body line st = Val tt st) ->
  forall st,
    for_each body lines st = for_each body (List.filter nonblank lines) st.
Proof.
  intros Hb. induction lines as [|line lines IH]; intros st; [done|].
  cbn [List.filter for_each]. destruct (nonblank line) eqn:Nb.
  - cbn [for_each]. unfold bind. destruct (body line st); [apply IH|done].
  - unfold bind. rewrite (Hb _ _ Nb). apply IH.
Qed.

(** X7. Blank lines count for nothing: an importer run on a file gives the
    result, the tables, the counters and the output it gives on the file
    without its blank lines. *)
Theorem blank_lines_are_ignored `{Platform} lines cw ct w :
  migrate_wallets (Some lines) cw w =
    migrate_wallets (Some (List.filter nonblank lines)) cw w /\
  migrate_transactions (Some lines) ct w =
    migrate_transactions (Some (List.filter nonblank lines)) ct w.
Proof.
  split.
  - unfold migrate_wallets. rewrite for_each_nonblank; [done|].
    intros line st Nb. unfold nonblank in Nb. apply negb_false_iff in Nb.
    unfold wallet_line. by rewrite Nb.
  - unfold migrate_transactions. rewrite for_each_nonblank; [done|].
    intros line st Nb. unfold nonblank in Nb. apply negb_false_iff in Nb.
    unfold transaction_line. by rewrite Nb.
Qed.

(** ** The rows an importer stages *)

(** X8. The wallet a line stages has the user id [int(data.get('user_id', 0))],
    which is the id of a valid user with no wallet in sight, and the balance
    [float(data.get('balance', 0.0))]: an absent balance is 0.0, and only a
    line that decodes to an object stages anything. *)
Theorem staged_wallet_fields `{Platform}
    (valid : gset Z) line data (st st' : locals Wallet.t) row :
  strip line <> "" ->
  json_loads (strip line) = Some data ->
  wallet_line valid line st = Val tt st' ->
  pending st' = pending st ++ [row] ->
  exists kvs,
    data = JObj kvs /\
    py_int (get_or kvs "user_id" (JInt 0)) = inr (Wallet.user_id row) /\
    Wallet.user_id row ∈ valid /\
    py_float (get_or kvs "balance" (JFloat (S754_zero false))) =
      inr (Wallet.balance row) /\
    find (fun r => Z.eqb (Wallet.user_id r) (Wallet.user_id row))
         (visible (wallets (env st)) st) = None.
Proof.
  intros Hne Hj. apply String.eqb_neq in Hne.
  unfold wallet_line, try_except. rewrite Hne, Hj. mstep.
  assert (forall s : locals Wallet.t,
            frame st s -> pending s = pending st ++ [row] -> False) as No.
  { intros s (_ & P & _) E. rewrite P in E. symmetry in E.
    by apply not_app_one in E. }
  destruct (py_get data "user_id" (JInt 0)) as [e|v] eqn:Eget; mstep.
  { destruct e; simpl; try discriminate; intros [= <-] P;
      exfalso; eapply No; eauto; framed. }
  destruct (py_int v) as [e|u] eqn:Ei; mstep.
  { destruct e; simpl; try discriminate; intros [= <-] P;
      exfalso; eapply No; eauto; framed. }
  destruct (bool_decide (u ∈ valid)) eqn:Hu; mstep.
  2:{ simpl. intros [= <-] P. exfalso; eapply No; eauto; framed. }
  apply bool_decide_eq_true in Hu.
  unfold wallet_first. destruct (find _ _) as [r|] eqn:Ef; mstep.
  { unfold print. intros [= <-] P. exfalso; eapply No; eauto; framed. }
  destruct data; try discriminate Eget.
  destruct (parse_timestamp_frame kvs "created_at" (on_env query_world st))
    as (c & s1 & -> & F1).
  destruct (parse_timestamp_frame kvs "last_updated" s1)
    as (l & s2 & -> & F2).
  destruct (py_get (JObj kvs) "balance" (JFloat (S754_zero false)))
    as [e|b] eqn:Eb; [discriminate Eb|].
  destruct (py_float b) as [e|f] eqn:Efl.
  { destruct e; simpl; try discriminate; intros [= <-] P;
      exfalso; eapply No; eauto; framed. }
  destruct (or_utcnow_frame c s2) as (c' & s3 & -> & F3).
  destruct (or_utcnow_frame l s3) as (l' & s4 & -> & F4).
  unfold session_add, incr_count, print, py_get. cbv beta iota.
  intros [= <-] P. cbn [pending on_env env] in P.
  assert (pending s4 = pending st) as Ps
    by (unfold frame in *; simpl in *; intuition congruence).
  rewrite Ps in P. apply app_inj_tail in P as [_ <-].
  cbn [Wallet.user_id Wallet.balance].
  exists kvs. injection Eget as <-. injection Eb as <-.
  split_and!; done.
Qed.

Lemma staged_wallet_fields_witness :
  let st := mkLocals w0 [] 0 0 in
  let row := Wallet.mk 9 (float_lit 40 0)
               (mkDatetime 2024 1 2 3 4 5 0 None)
               (mkDatetime 2026 11 3 12 0 0 0 None) in
  let st' := mkLocals (mkWorld [3; 7; 9]%Z [] [] 1 1 [OkWallet 9 (JInt 40)])
                      [row] 1 0 in
  wallet_line (H := sample true) (list_to_set (users w0)) line_wallet_9 st =
    Val tt st' /\
  exists kvs,
    JObj [("user_id", JInt 9); ("balance", JInt 40);
          ("created_at", JStr "2024-01-02T03:04:05");
          ("last_updated", JStr "yesterday")] = JObj kvs /\
    py_int (H := sample true) (get_or kvs "user_id" (JInt 0)) = inr 9%Z /\
    9%Z ∈ (list_to_set (users w0) : gset Z) /\
    py_float (H := sample true)
      (get_or kvs "balance" (JFloat (S754_zero false))) =
      inr (float_lit 40 0) /\
    find (fun r => Z.eqb (Wallet.user_id r) 9)
         (visible (H := sample true) (wallets (env st)) st) = None.
Proof.
  intros st row st'.
  assert (wallet_line (H := sample true) (list_to_set (users w0))
            line_wallet_9 st = Val tt st') as E by reflexivity.
  split; [exact E|].
  refine (staged_wallet_fields (H := sample true)
            (list_to_set (users w0)) line_wallet_9 _ st st' row _ _ E _).
  - vm_compute. discriminate.
  - reflexivity.
  - reflexivity.
Defined.

(** X9. The transaction a line stages: the id is the [id] member as decoded,
    the empty string when absent; the user id is
    [int(data.get('user_id', 0))], the id of a valid user; the amount is
    [float(data.get('amount', 0))]; the other members are copied as
    decoded, with the defaults ['wallet'] for the method, ['success'] for
    the status, the empty string for description, date and time, and [None]
    for username, type and new balance; the timestamp is the one parsed
    from the [timestamp] member when it holds one, otherwise a reading of
    the clock taken while the line is processed. *)
Theorem staged_transaction_fields `{Platform}
    (valid : gset Z) line data (st st' : locals Transaction.t) row :
  strip line <> "" ->
  json_loads (strip line) = Some data ->
  transaction_line valid line st = Val tt st' ->
  pending st' = pending st ++ [row] ->
  exists kvs,
    data = JObj kvs /\
    Transaction.transaction_id row = get_or kvs "id" (JStr "") /\
    py_int (get_or kvs "user_id" (JInt 0)) = inr (Transaction.user_id row) /\
    Transaction.user_id row ∈ valid /\
    py_float (get_or kvs "amount" (JInt 0)) = inr (Transaction.amount row) /\
    Transaction.username row = get_or kvs "username" JNull /\
    Transaction.method row = get_or kvs "method" (JStr "wallet") /\
    Transaction.status row = get_or kvs "status" (JStr "success") /\
    Transaction.txn_type row = get_or kvs "type" JNull /\
    Transaction.description row = get_or kvs "description" (JStr "") /\
    Transaction.new_balance row = get_or kvs "new_balance" JNull /\
    Transaction.txn_date row = get_or kvs "date" (JStr "") /\
    Transaction.txn_time row = get_or kvs "time" (JStr "") /\
    match iso_field data "timestamp" with
    | Some t => Transaction.timestamp row = t
    | None => read_between st st' (Transaction.timestamp row)
    end.
Proof.
  intros Hne Hj. apply String.eqb_neq in Hne.
  unfold transaction_line, try_except. rewrite Hne, Hj. mstep.
  assert (forall s : locals Transaction.t,
            frame st s -> pending s = pending st ++ [row] -> False) as No.
  { intros s (_ & P & _) E. rewrite P in E. symmetry in E.
    by apply not_app_one in E. }
  destruct (py_get data "id" (JStr "")) as [e|txn_id] eqn:Eid; mstep.
  { destruct e; simpl; try discriminate; intros [= <-] P;
      exfalso; eapply No; eauto; framed. }
  destruct data; try discriminate Eid.
  destruct (py_get (JObj kvs) "user_id" (JInt 0)) as [e|v] eqn:Eget;
    [discriminate Eget|]; mstep.
  destruct (py_int v) as [e|u] eqn:Ei; mstep.
  { destruct e; simpl; try discriminate; intros [= <-] P;
      exfalso; eapply No; eauto; framed. }
  destruct (bool_decide (u ∈ valid)) eqn:Hu; mstep.
  2:{ simpl. intros [= <-] P. exfalso; eapply No; eauto; framed. }
  apply bool_decide_eq_true in Hu.
  unfold transaction_first. destruct (find _ _) as [r|] eqn:Ef; mstep.
  { unfold print. intros [= <-] P. exfalso; eapply No; eauto; framed. }
  destruct (parse_timestamp_value kvs "timestamp" (on_env query_world st))
    as (c & s1 & -> & F1 & L1 & V1).
  destruct (py_get (JObj kvs) "amount" (JInt 0)) as [e|a] eqn:Ea;
    [discriminate Ea|].
  unfold py_get at 1. cbv beta iota.
  destruct (py_float a) as [e|f] eqn:Efl.
  { destruct e; simpl; try discriminate; intros [= <-] P;
      exfalso; eapply No; eauto; framed. }
  unfold py_get. cbv beta iota.
  destruct (or_utcnow_value c s1) as (c' & s2 & -> & F2 & L2 & V2).
  unfold session_add, incr_count, print. cbv beta iota.
  intros [= <-] P. cbn [pending on_env env] in P.
  assert (pending s2 = pending st) as Ps
    by (unfold frame in *; simpl in *; intuition congruence).
  rewrite Ps in P. apply app_inj_tail in P as [_ <-].
  cbn [Transaction.transaction_id Transaction.user_id Transaction.username
       Transaction.amount Transaction.method Transaction.status
       Transaction.txn_type Transaction.description Transaction.new_balance
       Transaction.txn_date Transaction.txn_time Transaction.timestamp].
  exists kvs. injection Eid as <-. injection Eget as <-. injection Ea as <-.
  split_and!; try done.
  simpl in L1.
  destruct (iso_field _ "timestamp").
  { subst c. exact V2. }
  destruct V1 as [-> | (t & -> & Rt)].
  - eapply read_between_mono; [| |exact V2]; simpl; lia.
  - subst c'. eapply read_between_mono; [| |exact Rt]; simpl; lia.
Qed.

Lemma staged_transaction_fields_witness :
  let st := mkLocals w0 [] 0 0 in
  let row := Transaction.mk (JStr "TXN1") 3 JNull
               (binary_normalize 53 1024 (-50) 0 false)
               (JStr "wallet") (JStr "success") JNull (JStr "") JNull
               (JStr "") (JStr "")
               (mkDatetime 2026 11 3 12 0 0 0 None) in
  let st' := mkLocals
               (mkWorld [3; 7; 9]%Z [] [] 1 1
                  [OkTransaction (JStr "TXN1") 3 (JInt (-50))])
               [row] 1 0 in
  transaction_line (H := sample true) (list_to_set (users w0)) line_txn1_3 st
    = Val tt st' /\
  Transaction.method row = JStr "wallet" /\
  Transaction.status row = JStr "success" /\
  read_between (H := sample true) st st' (Transaction.timestamp row).
Proof.
  intros st row st'.
  assert (transaction_line (H := sample true) (list_to_set (users w0))
            line_txn1_3 st = Val tt st') as E by reflexivity.
  split; [exact E|].
  destruct (staged_transaction_fields (H := sample true)
              (list_to_set (users w0)) line_txn1_3
              (JObj [("id", JStr "TXN1"); ("user_id", JInt 3);
                     ("amount", JInt (-50))])
              st st' row) as (kvs & Ek & _ & _ & _ & _ & _ & Hm & Hs
                              & _ & _ & _ & _ & _ & Ht).
  - vm_compute. discriminate.
  - reflexivity.
  - exact E.
  - reflexivity.
  - split_and!; [reflexivity|reflexivity|exact Ht].
Defined.

(** ** Lines the loop passes over *)

(** The timestamp block prints nothing. *)
Lemma parse_timestamp_quiet `{Platform} {R} kvs k (st : locals R) :
  exists o st',
    parse_timestamp (JObj kvs) k st = Val o st' /\ frame st st' /\
    skipped st' = skipped st /\
    stdout (env st') = stdout (env st).
Proof.
  unfold parse_timestamp, bind, lift, py_get, ret, raise, try_except.
  destruct (py_truthy _); [|by eexists _, _].
  destruct (py_fromisoformat _) as [e|t] eqn:E; [|by eexists _, _].
  rewrite (py_fromisoformat_raises _ _ E). unfold utcnow.
  eexists _, _. split_and!; [reflexivity|auto with frames|done|done].
Qed.

(** X10. A wallet line on which [int] of the user id raises [ValueError], or,
    for a valid user without a wallet in sight, [float] of the balance
    does, is passed over: nothing is staged, no counter moves, the error is
    the one line printed, and the loop goes on with the next line. *)
Theorem value_error_skips_the_line `{Platform}
    (valid : gset Z) line kvs rest (st : locals Wallet.t) :
  strip line <> "" ->
  json_loads (strip line) = Some (JObj kvs) ->
  (py_int (get_or kvs "user_id" (JInt 0)) = inl ValueError \/
   exists u,
     py_int (get_or kvs "user_id" (JInt 0)) = inr u /\ u ∈ valid /\
     find (fun r => Z.eqb (Wallet.user_id r) u)
          (visible (wallets (env st)) st) = None /\
     py_float (get_or kvs "balance" (JFloat (S754_zero false))) =
       inl ValueError) ->
  exists st',
    wallet_line valid line st = Val tt st' /\
    frame st st' /\ skipped st' = skipped st /\
    stdout (env st') = stdout (env st) ++ [ErrorWalletLine ValueError] /\
    for_each (wallet_line valid) (line :: rest) st =
      for_each (wallet_line valid) rest st'.
Proof.
  intros Hne Hj Hv. apply String.eqb_neq in Hne.
  assert (exists st',
    wallet_line valid line st = Val tt st' /\
    frame st st' /\ skipped st' = skipped st /\
    stdout (env st') = stdout (env st) ++ [ErrorWalletLine ValueError])
    as (st' & E & F & S & O).
  { unfold wallet_line, try_except. rewrite Hne, Hj. mstep.
    unfold py_get at 1. cbv beta iota. fold (get_or kvs "user_id" (JInt 0)).
    destruct Hv as [Ei|(u & Ei & Hu & Ef & Eb)]; rewrite Ei; mstep.
    { simpl. unfold print. eexists. split_and!; [reflexivity|framed|done..]. }
    rewrite bool_decide_eq_true_2 by done. mstep.
    unfold wallet_first. rewrite Ef. mstep.
    destruct (parse_timestamp_quiet kvs "created_at" (on_env query_world st))
      as (c & s1 & -> & F1 & S1 & O1).
    destruct (parse_timestamp_quiet kvs "last_updated" s1)
      as (l & s2 & -> & F2 & S2 & O2).
    unfold py_get at 1. cbv beta iota.
    fold (get_or kvs "balance" (JFloat (S754_zero false))). rewrite Eb.
    simpl. unfold print. eexists. split; [reflexivity|].
    split; [framed|]. simpl in *. split; congruence. }
  exists st'. split_and!; try done.
  cbn [for_each]. unfold bind. by rewrite E.
Qed.

Lemma value_error_skips_the_line_witness :
  let st := mkLocals w0 [] 0 0 in
  exists st',
    wallet_line (H := sample_more true) (list_to_set (users w0))
      line_bad_balance st = Val tt st' /\
    frame st st' /\ skipped st' = skipped st /\
    stdout (env st') = stdout (env st) ++ [ErrorWalletLine ValueError] /\
    for_each (wallet_line (H := sample_more true) (list_to_set (users w0)))
      [line_bad_balance; line_wallet_9] st =
    for_each (wallet_line (H := sample_more true) (list_to_set (users w0)))
      [line_wallet_9] st'.
Proof.
  intros st.
  refine (value_error_skips_the_line (H := sample_more true)
            (list_to_set (users w0)) line_bad_balance
            [("user_id", JInt 7); ("balance", JStr "abc")]
            [line_wallet_9] st _ _ _).
  - vm_compute. discriminate.
  - reflexivity.
  - right. exists 7%Z. split_and!; reflexivity.
Defined.

(** X11. A line whose row is already in sight is passed over without being
    counted: the existence query is made, the skip is printed, and neither
    [count] nor [skipped] moves; the row in the table is left as it is. *)
Theorem existing_row_is_left_alone `{Platform} (valid : gset Z) line kvs u :
  strip line <> "" ->
  json_loads (strip line) = Some (JObj kvs) ->
  py_int (get_or kvs "user_id" (JInt 0)) = inr u ->
  u ∈ valid ->
  (forall (st : locals Wallet.t) r,
     find (fun r => Z.eqb (Wallet.user_id r) u)
          (visible (wallets (env st)) st) = Some r ->
     wallet_line valid line st =
       Val tt (on_env (print_world (SkipWalletExists u))
                 (on_env query_world st))) /\
  (forall (st : locals Transaction.t) r,
     find (fun r => json_eqb (Transaction.transaction_id r)
                      (get_or kvs "id" (JStr ""))
                    && Z.eqb (Transaction.user_id r) u)
          (visible (transactions (env st)) st) = Some r ->
     transaction_line valid line st =
       Val tt (on_env (print_world
                         (SkipTransactionExists (get_or kvs "id" (JStr "")) u))
                 (on_env query_world st))).
Proof.
  intros Hne Hj Ei Hu. apply String.eqb_neq in Hne.
  split; intros st r Ef.
  - unfold wallet_line, try_except. rewrite Hne, Hj. mstep.
    unfold py_get at 1. cbv beta iota. fold (get_or kvs "user_id" (JInt 0)).
    rewrite Ei. mstep. rewrite bool_decide_eq_true_2 by done. mstep.
    unfold wallet_first. rewrite Ef. reflexivity.
  - unfold transaction_line, try_except. rewrite Hne, Hj. mstep.
    unfold py_get at 1 2. cbv beta iota.
    fold (get_or kvs "id" (JStr "")). fold (get_or kvs "user_id" (JInt 0)).
    rewrite Ei. mstep. rewrite bool_decide_eq_true_2 by done. mstep.
    unfold transaction_first. rewrite Ef. reflexivity.
Qed.

Lemma existing_row_is_left_alone_witness :
  let old := Wallet.mk 7 (float_lit 1 0)
               (mkDatetime 2020 1 1 0 0 0 0 None)
               (mkDatetime 2020 1 1 0 0 0 0 None) in
  let st := mkLocals (mkWorld [3; 7; 9]%Z [old] [] 0 0 []) [] 0 0 in
  wallet_line (H := sample true) (list_to_set [3; 7; 9]%Z) line_wallet_7 st =
    Val tt (mkLocals (mkWorld [3; 7; 9]%Z [old] [] 0 1 [SkipWalletExists 7])
                     [] 0 0).
Proof.
  intros old st.
  refine (proj1 (existing_row_is_left_alone (H := sample true)
                   (list_to_set [3; 7; 9]%Z) line_wallet_7
                   [("user_id", JInt 7);
                    ("balance", JFloat (float_lit 501 (-1)))] 7 _ _ _ _)
            st old _).
  - vm_compute. discriminate.
  - reflexivity.
  - reflexivity.
  - apply (bool_decide_unpack _). vm_compute. exact I.
  - reflexivity.
Defined.

(** ** What an importer depends on *)

(** X12. Which rows an importer inserts depends on the file, the users and its
    own table only.  The transaction importer never reads the wallets (a
    user needs no wallet to get transactions), the wallet importer never
    reads the transactions, and neither the clock nor what was printed
    before changes whether the importer returns or which keys it inserts. *)
Theorem importers_read_their_own_table `{Platform} file w
    other_wallets other_transactions t q out :
  let keys_w r := map wallet_key (wallets (final r)) in
  let keys_t r := map transaction_key (transactions (final r)) in
  let r1 := migrate_wallets file accept w in
  let r2 := migrate_wallets file accept
              (mkWorld (users w) (wallets w) other_transactions t q out) in
  let r3 := migrate_transactions file accept w in
  let r4 := migrate_transactions file accept
              (mkWorld (users w) other_wallets (transactions w) t q out) in
  (returned r2 = returned r1 /\ keys_w r2 = keys_w r1) /\
  (returned r4 = returned r3 /\ keys_t r4 = keys_t r3).
Proof.
  intros keys_w keys_t r1 r2 r3 r4. subst keys_w keys_t r1 r2 r3 r4.
  destruct file as [lines|]; [|done]. split.
  - pose proof (migrate_wallets_plans lines accept w) as L1.
    pose proof (migrate_wallets_plans lines accept
                  (mkWorld (users w) (wallets w) other_transactions t q out))
      as L2.
    cbn [users wallets] in L2.
    destruct (run_plans _ _ _ _ _) as [e|ks].
    + destruct L1 as (w1 & -> & _ & W1 & _).
      destruct L2 as (w2 & -> & _ & W2 & _). simpl in *. by rewrite W1, W2.
    + destruct L1 as (w1 & b1 & -> & K1 & _ & _ & W1).
      destruct L2 as (w2 & b2 & -> & K2 & _ & _ & W2).
      simpl in *. unfold accept in *.
      by rewrite W1, W2, !map_app, K1, K2.
  - pose proof (migrate_transactions_plans lines accept w) as L1.
    pose proof (migrate_transactions_plans lines accept
                  (mkWorld (users w) other_wallets (transactions w) t q out))
      as L2.
    cbn [users transactions] in L2.
    destruct (run_plans _ _ _ _ _) as [e|ks].
    + destruct L1 as (w1 & -> & _ & _ & W1).
      destruct L2 as (w2 & -> & _ & _ & W2). simpl in *. by rewrite W1, W2.
    + destruct L1 as (w1 & b1 & -> & K1 & _ & _ & W1).
      destruct L2 as (w2 & b2 & -> & K2 & _ & _ & W2).
      simpl in *. unfold accept in *.
      by rewrite W1, W2, !map_app, K1, K2.
Qed.
